(** * terraform-provider-sysdig: the cloudauth account client and the
      metric alert (v2) resource

    A shallow embedding of [sysdig/internal/client/v2/cloudauth.go] and of
    the metric alert resource of package [sysdig], with the properties the
    specification states about them.

    Conventions of the embedding.
    - A Go value of interface type [error] is an [option error]: [None] is
      [nil].  A pointer to T and an error returned together by a function
      of the source are a pair [option T * option error].
    - A callee that is not part of the embedded files and whose Go contract
      is "the value is valid exactly when the error is nil" returns a
      [result].
    - Code that talks to the outside (the HTTP requester, the monitor
      client) is written in a state monad; the state carries a log of the
      calls that were made, so that "which request was sent" and "was the
      client called again" are statements about the log.
    - A pointer that the code dereferences is an [option]; a function that
      dereferences [None] ends with the outcome [Panicked] instead of a
      returned value.
    - [context.Context] is only handed on to callees and is left out.
    - [defer response.Body.Close()] has no effect on any returned value and
      is left out. *)

From Stdlib Require Import ZArith String Ascii List Bool Lia DecimalString.
From Stdlib Require Import Floats.PrimFloat.
From Stdlib Require DecimalPos.
From stdpp Require Import base gmap strings.

Local Open Scope Z_scope.

(** ** Go's [error], [errors.New] and the [fmt] verbs the source uses *)

(** The error values of the embedded code: [errors.New]'s [*errorString]
    and the wrapping errors ([fmt.Errorf] with [%w], [strconv.NumError]),
    which carry their text and the error they unwrap to. *)
Inductive error : Type :=
| errorString (s : string)
| wrapError (msg : string) (err : error).

(** The [Error()] method. *)
Definition Error (e : error) : string :=
  match e with
  | errorString s => s
  | wrapError msg _ => msg
  end.

(** [errors.Unwrap]. *)
Definition Unwrap (e : error) : option error :=
  match e with
  | errorString _ => None
  | wrapError _ err => Some err
  end.

Inductive result (A : Type) : Type :=
| Ok (a : A)
| Err (e : error).
Arguments Ok {A} a.
Arguments Err {A} e.

Module errors.

Definition New (text : string) : error := errorString text.

End errors.

Module fmt.

(** An operand of a formatting call: the source passes strings and
    errors. *)
Inductive operand : Type :=
| str (s : string)
| err (e : error).

Definition text (o : operand) : string :=
  match o with
  | str s => s
  | err e => Error e
  end.

(** The formatter, for the formats the source has: text, [%s] with a
    string or an error, and in [Errorf] at most one [%w] with an error,
    which prints like [%s]; the result is the text and the operand of that
    [%w].  A verb without operand prints Go's [%!s(MISSING)] or
    [%!w(MISSING)], [%%] prints a percent sign, and a percent sign that
    ends the format prints [%!(NOVERB)].  Outside the embedded fragment
    are: any other verb, more operands than verbs, [%w] in [Sprintf], with
    an operand that is no error, or more than once.  Go prints the
    operands' dynamic types there ([%!d(string=...)], [%!(EXTRA ...)]) or
    wraps several errors, which this embedding does not carry.  Every
    format of the source is inside the fragment. *)
Fixpoint doPrintf (format : string) (a : list operand) : string * option error :=
  match format with
  | String "%" EmptyString => ("%!(NOVERB)", None)
  | String "%" (String "%" rest) =>
      let '(t, w) := doPrintf rest a in (String "%" t, w)
  | String "%" (String "s" rest) =>
      match a with
      | o :: a' => let '(t, w) := doPrintf rest a' in (String.append (text o) t, w)
      | [] => let '(t, w) := doPrintf rest [] in (String.append "%!s(MISSING)" t, w)
      end
  | String "%" (String "w" rest) =>
      match a with
      | o :: a' =>
          let '(t, w) := doPrintf rest a' in
          (String.append (text o) t,
           match o with err e => Some e | str _ => w end)
      | [] => let '(t, w) := doPrintf rest [] in (String.append "%!w(MISSING)" t, w)
      end
  | String c rest => let '(t, w) := doPrintf rest a in (String c t, w)
  | EmptyString => (EmptyString, None)
  end.

Definition Sprintf (format : string) (a : list operand) : string :=
  fst (doPrintf format a).

(** [fmt.Errorf]: the formatted text; with a [%w] operand the result
    unwraps to it. *)
Definition Errorf (format : string) (a : list operand) : error :=
  let '(t, w) := doPrintf format a in
  match w with
  | Some e => wrapError t e
  | None => errorString t
  end.

End fmt.

(** ** A state monad for code that calls out *)

Definition M (W A : Type) : Type := W -> A * W.

Definition ret {W A : Type} (a : A) : M W A := fun w => (a, w).

Definition bind {W A B : Type} (m : M W A) (k : A -> M W B) : M W B :=
  fun w => let '(a, w') := m w in k a w'.

Notation "'let*' x ':=' m 'in' k" := (bind m (fun x => k))
  (at level 10, x pattern, m at level 100, k at level 200).

(** ** [net/http]: the constants the client uses *)

Module http.

Definition MethodGet : string := "GET".
Definition MethodPost : string := "POST".
Definition MethodPut : string := "PUT".
Definition MethodDelete : string := "DELETE".

Definition StatusOK : Z := 200.
Definition StatusCreated : Z := 201.
Definition StatusNoContent : Z := 204.
Definition StatusNotFound : Z := 404.

End http.

(** ** Package [v2]: the cloudauth account client *)

Module v2.

Definition cloudauthAccountsPath : string := "%s/api/cloudauth/v1/accounts".
Definition cloudauthAccountPath : string := "%s/api/cloudauth/v1/accounts/%s".

(** What [cloudauth.go] uses and does not define: the account struct, the
    payload [Marshal] produces, the response body, [Marshal], [Unmarshal],
    [ErrorFromResponse], and the remote end behind [requester.Request]
    ([Server] is its state, [respond] its answer to one request). *)
Class Collaborators : Type := {
  CloudauthAccountSecure : Type;
  Payload : Type;
  ReadCloser : Type;
  Server : Type;
  Marshal : CloudauthAccountSecure -> result Payload;
  Unmarshal : ReadCloser -> option CloudauthAccountSecure * option error;
  ErrorFromResponse_of : Z -> ReadCloser -> option error;
  respond_to : string -> string -> option Payload -> Server ->
               result (Z * ReadCloser) * Server
}.

Section Client.
Context `{Collaborators}.

Record Response : Type := { StatusCode : Z; Body : ReadCloser }.

Record Request : Type := {
  Method : string;
  URL : string;
  Payload_of : option Payload
}.

(** The requester's side of the world: every request handed to it, oldest
    first, and the remote state. *)
Record Net : Type := { sent : list Request; server : Server }.

Definition ErrorFromResponse (response : Response) : option error :=
  ErrorFromResponse_of (StatusCode response) (Body response).

Definition respond (r : Request) (s : Server) : result Response * Server :=
  let '(a, s') := respond_to (Method r) (URL r) (Payload_of r) s in
  (match a with
   | Ok (code, body) => Ok {| StatusCode := code; Body := body |}
   | Err e => Err e
   end, s').

(** [client.requester.Request(ctx, method, url, payload)]. *)
Definition requester_Request (method url : string) (payload : option Payload)
  : M Net (result Response) :=
  fun n =>
    let r := {| Method := method; URL := url; Payload_of := payload |} in
    let '(a, s') := respond r (server n) in
    (a, {| sent := sent n ++ [r]; server := s' |}).

Record Config : Type := { url : string }.
Record Client : Type := { config : Config }.

Definition cloudauthAccountsURL (client : Client) : string :=
  fmt.Sprintf cloudauthAccountsPath [fmt.str (url (config client))].

Definition cloudauthAccountURL (client : Client) (accountID : string) : string :=
  fmt.Sprintf cloudauthAccountPath [fmt.str (url (config client)); fmt.str accountID].

Definition CreateCloudauthAccountSecure (client : Client)
    (cloudAccount : CloudauthAccountSecure)
  : M Net (option CloudauthAccountSecure * option error) :=
  match Marshal cloudAccount with
  | Err e => ret (None, Some e)
  | Ok payload =>
      let* response :=
        requester_Request http.MethodPost (cloudauthAccountsURL client) (Some payload) in
      match response with
      | Err e => ret (None, Some e)
      | Ok response =>
          if negb (Z.eqb (StatusCode response) http.StatusOK)
             && negb (Z.eqb (StatusCode response) http.StatusCreated)
          then ret (None, ErrorFromResponse response)
          else ret (Unmarshal (Body response))
      end
  end.

Definition GetCloudauthAccountSecure (client : Client) (accountID : string)
  : M Net (option CloudauthAccountSecure * option error) :=
  let* response :=
    requester_Request http.MethodGet (cloudauthAccountURL client accountID) None in
  match response with
  | Err e => ret (None, Some e)
  | Ok response =>
      if negb (Z.eqb (StatusCode response) http.StatusOK)
      then ret (None, ErrorFromResponse response)
      else ret (Unmarshal (Body response))
  end.

Definition DeleteCloudauthAccountSecure (client : Client) (accountID : string)
  : M Net (option error) :=
  let* response :=
    requester_Request http.MethodDelete (cloudauthAccountURL client accountID) None in
  match response with
  | Err e => ret (Some e)
  | Ok response =>
      if negb (Z.eqb (StatusCode response) http.StatusNoContent)
         && negb (Z.eqb (StatusCode response) http.StatusOK)
      then ret (ErrorFromResponse response)
      else ret None
  end.

Definition UpdateCloudauthAccountSecure (client : Client) (accountID : string)
    (cloudAccount : CloudauthAccountSecure)
  : M Net (option CloudauthAccountSecure * option error) :=
  match Marshal cloudAccount with
  | Err e => ret (None, Some e)
  | Ok payload =>
      let* response :=
        requester_Request http.MethodPut (cloudauthAccountURL client accountID) (Some payload) in
      match response with
      | Err e => ret (None, Some e)
      | Ok response =>
          if negb (Z.eqb (StatusCode response) http.StatusOK)
          then ret (None, ErrorFromResponse response)
          else ret (Unmarshal (Body response))
      end
  end.

End Client.

End v2.

(** ** [strconv]: [Atoi] and [Itoa] *)

Module strconv.

Definition ErrSyntax : error := errors.New "invalid syntax".
Definition ErrRange : error := errors.New "value out of range".

(** Go's [int] on the 64-bit platforms the provider is built for. *)
Definition maxInt : Z := 2 ^ 63 - 1.
Definition minInt : Z := - 2 ^ 63.

Definition digit (c : ascii) : option Z :=
  let n := Z.of_nat (nat_of_ascii c) in
  if (48 <=? n)%Z && (n <=? 57)%Z then Some (n - 48) else None.

Fixpoint digits (s : string) (acc : Z) : option Z :=
  match s with
  | EmptyString => Some acc
  | String c rest =>
      match digit c with
      | Some v => digits rest (10 * acc + v)
      | None => None
      end
  end.

(** The decimal numeral a string is: an optional sign and one or more
    digits, given as the sign and the magnitude, which is not bounded;
    [None] when the string is no decimal numeral. *)
Definition parse (s : string) : option (bool * Z) :=
  let '(neg, body) :=
    match s with
    | String "+" rest => (false, rest)
    | String "-" rest => (true, rest)
    | _ => (false, s)
    end in
  match body with
  | EmptyString => None
  | _ => match digits body 0 with
         | Some n => Some (neg, n)
         | None => None
         end
  end.

(** How [ParseUint] fails. *)
Inductive failure : Type := SyntaxError | RangeError.

Definition maxUint64 : Z := 2 ^ 64 - 1.

(** The loop of [ParseUint(s, 10, 64)] from the value [n] read so far: it
    reads from the left and stops at the first character that is no digit
    (a syntax error, value 0) or at the first digit with which the value
    leaves [uint64] (a range error, value [maxUint64]), whichever comes
    first; what follows is not read. *)
Fixpoint ParseUint_from (s : string) (n : Z) : Z * option failure :=
  match s with
  | EmptyString => (n, None)
  | String c rest =>
      match digit c with
      | None => (0, Some SyntaxError)
      | Some d =>
          if (maxUint64 / 10 + 1 <=? n)%Z then (maxUint64, Some RangeError)
          else
            let n1 := 10 * n + d in
            if (maxUint64 <? n1)%Z then (maxUint64, Some RangeError)
            else ParseUint_from rest n1
      end
  end.

Definition ParseUint (s : string) : Z * option failure :=
  match s with
  | EmptyString => (0, Some SyntaxError)
  | _ => ParseUint_from s 0
  end.

Section Atoi.
(** [strconv.Quote]; it only shapes the text of a [NumError]. *)
Variable Quote : string -> string.

(** [&NumError{Func, Num, Err}]: its text, and [Err] behind [Unwrap]. *)
Definition NumError (Func Num : string) (Err : error) : error :=
  wrapError ("strconv." +:+ Func +:+ ": parsing " +:+ Quote Num +:+ ": " +:+ Error Err) Err.

(** [ParseInt(s, 10, 0)] with the function name of the error set to
    [Atoi], which is what [Atoi] returns; its fast path for short strings
    gives the same results.  On a syntax error the value is 0; out of range
    it is the nearest [int]. *)
Definition Atoi (s : string) : Z * option error :=
  let '(neg, body) :=
    match s with
    | String "+" rest => (false, rest)
    | String "-" rest => (true, rest)
    | _ => (false, s)
    end in
  match ParseUint body with
  | (_, Some SyntaxError) => (0, Some (NumError "Atoi" s ErrSyntax))
  | (un, _) =>
      let cutoff := 2 ^ 63 in
      if negb neg && (cutoff <=? un)%Z
      then (cutoff - 1, Some (NumError "Atoi" s ErrRange))
      else if neg && (cutoff <? un)%Z
      then (- cutoff, Some (NumError "Atoi" s ErrRange))
      else (if neg then - un else un, None)
  end.

End Atoi.

Definition Itoa (i : Z) : string :=
  DecimalString.NilZero.string_of_int (Z.to_int i).

End strconv.

(** ** [diag]: diagnostics of the plugin SDK *)

Module diag.

Inductive Severity : Type := SeverityError | SeverityWarning.

Record Diagnostic : Type := {
  Severity_of : Severity;
  Summary : string;
  Detail : string
}.

(** A [nil] slice is the empty list. *)
Definition Diagnostics : Type := list Diagnostic.

Definition FromErr (err : option error) : Diagnostics :=
  match err with
  | None => []
  | Some e => [ {| Severity_of := SeverityError; Summary := Error e; Detail := EmptyString |} ]
  end.

End diag.

(** ** [schema]: the resource data of the plugin SDK

    The SDK keeps every attribute at the type its schema declares, so the
    type assertions of the source ([d.Get(k).(string)]) cannot fail; the
    embedding stores the attributes by type.  Attributes of other types are
    read and written only by helper functions that are not part of the
    embedded files; they are kept as one opaque component. *)

Module schema.

Inductive ValueType : Type := TypeString | TypeFloat.

(** The fields of [schema.Schema] the resource sets.  [Default] is a string
    because the source only gives a string default; [ValidateFunc] holds
    the list handed to [validation.StringInSlice]. *)
Record Schema : Type := {
  Type_ : ValueType;
  Required : bool;
  Optional : bool;
  Default : option string;
  ValidateFunc : option (list string)
}.

Section ResourceData.
Variable Other : Type.

Record ResourceData : Type := {
  Id : string;
  strings : gmap string string;
  floats : gmap string float;
  other : Other
}.

Definition SetId (d : ResourceData) (v : string) : ResourceData :=
  {| Id := v; strings := strings d; floats := floats d; other := other d |}.

(** The schema the data was created for. *)
Variable sch : gmap string Schema.

Definition defaultString (key : string) : string :=
  match sch !! key with
  | Some s => match Default s with Some v => v | None => EmptyString end
  | None => EmptyString
  end.

(** [d.Get(key)] at a [TypeString] key: the value that is set, else the
    schema's default, else the zero value. *)
Definition Get_string (d : ResourceData) (key : string) : string :=
  match strings d !! key with
  | Some v => v
  | None => defaultString key
  end.

(** [d.Get(key)] at a [TypeFloat] key. *)
Definition Get_float (d : ResourceData) (key : string) : float :=
  match floats d !! key with
  | Some v => v
  | None => 0%float
  end.

(** [d.GetOk(key)] at a [TypeFloat] key: the second component tells that
    the key is set to a value other than the zero value (Go's [==] on
    [float64], so both zeros count as zero). *)
Definition GetOk_float (d : ResourceData) (key : string) : float * bool :=
  (Get_float d key,
   match floats d !! key with
   | Some v => negb (PrimFloat.eqb v 0%float)
   | None => false
   end).

Definition hasType (key : string) (t : ValueType) : bool :=
  match sch !! key with
  | Some s => match Type_ s, t with
              | TypeString, TypeString | TypeFloat, TypeFloat => true
              | _, _ => false
              end
  | None => false
  end.

(** [d.Set(key, value)] with a string: refused with an error, and nothing
    written, when the schema has no string attribute of that name. *)
Definition Set_string (d : ResourceData) (key : string) (value : string)
  : ResourceData * option error :=
  if hasType key TypeString
  then ({| Id := Id d; strings := <[key := value]> (strings d);
           floats := floats d; other := other d |}, None)
  else (d, Some (errors.New ("Invalid address to set: " +:+ key))).

(** [d.Set(key, value)] with a [float64] (or a non-nil pointer to one,
    which [Set] dereferences). *)
Definition Set_float (d : ResourceData) (key : string) (value : float)
  : ResourceData * option error :=
  if hasType key TypeFloat
  then ({| Id := Id d; strings := strings d;
           floats := <[key := value]> (floats d); other := other d |}, None)
  else (d, Some (errors.New ("Invalid address to set: " +:+ key))).

End ResourceData.

Arguments Id {Other} _.
Arguments strings {Other} _.
Arguments floats {Other} _.
Arguments other {Other} _.
Arguments SetId {Other} _ _.
Arguments Get_string {Other} _ _ _.
Arguments Get_float {Other} _ _.
Arguments GetOk_float {Other} _ _.
Arguments Set_string {Other} _ _ _ _.
Arguments Set_float {Other} _ _ _ _.

End schema.

(** ** Package [sysdig]: the metric alert (v2) resource *)

Module sysdig.

(** What the resource file takes from package [monitor] and from the rest
    of its own package without defining it: the alert type tag and its
    constant [AlertV2AlertType_Manual], the fields of [AlertV2Common] other
    than [ID] and [Type], the scope and segmentation part of a
    configuration with its zero value, the type of a descriptor's [ID] with
    its zero value, the attributes of the resource data that are not
    strings or floats, the state of the remote service, and
    [strconv.Quote]. *)
Class Monitor : Type := {
  AlertV2AlertType : Type;
  AlertV2AlertType_Manual : AlertV2AlertType;
  CommonFields : Type;
  ScopedSegmentedConfig : Type;
  ScopedSegmentedConfig_zero : ScopedSegmentedConfig;
  DescriptorID : Type;
  DescriptorID_zero : DescriptorID;
  OtherAttributes : Type;
  Remote : Type;
  Quote : string -> string
}.

(** Outcome of a Go function that may dereference a nil pointer. *)
Inductive outcome (A : Type) : Type :=
| Returned (a : A)
| Panicked.
Arguments Returned {A} a.
Arguments Panicked {A}.

(** The map literal of [resourceSysdigMonitorAlertV2Metric]; the entries
    that [createAlertV2Schema] and [createScopedSegmentedAlertV2Schema] add
    belong to the helper functions. *)
Definition resourceSysdigMonitorAlertV2Metric_Schema : gmap string schema.Schema :=
  list_to_map [
    ("op", {| schema.Type_ := schema.TypeString; schema.Required := true;
              schema.Optional := false; schema.Default := None;
              schema.ValidateFunc := Some [">"; ">="; "<"; "<="; "="; "!="] |});
    ("threshold", {| schema.Type_ := schema.TypeFloat; schema.Required := true;
              schema.Optional := false; schema.Default := None;
              schema.ValidateFunc := None |});
    ("warning_threshold", {| schema.Type_ := schema.TypeFloat; schema.Required := false;
              schema.Optional := true; schema.Default := None;
              schema.ValidateFunc := None |});
    ("metric", {| schema.Type_ := schema.TypeString; schema.Required := true;
              schema.Optional := false; schema.Default := None;
              schema.ValidateFunc := None |});
    ("time_aggregation", {| schema.Type_ := schema.TypeString; schema.Required := true;
              schema.Optional := false; schema.Default := None;
              schema.ValidateFunc := Some ["avg"; "timeAvg"; "sum"; "min"; "max"] |});
    ("group_aggregation", {| schema.Type_ := schema.TypeString; schema.Required := true;
              schema.Optional := false; schema.Default := None;
              schema.ValidateFunc := Some ["avg"; "sum"; "min"; "max"] |});
    ("no_data_behaviour", {| schema.Type_ := schema.TypeString; schema.Required := false;
              schema.Optional := true; schema.Default := Some "DO_NOTHING";
              schema.ValidateFunc := Some ["DO_NOTHING"; "TRIGGER"] |})
  ].

Section Resource.
Context `{Monitor}.

(** *** The structs of package [monitor] the resource reads and writes *)

Record AlertV2Common : Type := {
  ID : Z;
  Type_ : AlertV2AlertType;
  Fields : CommonFields
}.

Record AlertMetricDescriptorV2 : Type := {
  Metric_ID : DescriptorID;
  Metric_PublicID : string
}.

Record LabelDescriptorV3 : Type := {
  Descriptor_ID : DescriptorID;
  Descriptor_PublicID : string
}.

Record LabelDescriptorV3Wrapper : Type := {
  LabelDescriptor : LabelDescriptorV3
}.

Record AlertV2ConfigMetric : Type := {
  Scoped : ScopedSegmentedConfig;
  ConditionOperator : string;
  Threshold : float;
  WarningConditionOperator : string;
  WarningThreshold : option float;
  TimeAggregation : string;
  GroupAggregation : string;
  Metric : AlertMetricDescriptorV2;
  NoDataBehaviour : string
}.

(** [Config] is a pointer: [None] is nil.  It is not nil in a struct the
    resource builds; in an alert the client returns it may be. *)
Record AlertV2Metric : Type := {
  Common : AlertV2Common;
  Config : option AlertV2ConfigMetric
}.

(** [&monitor.AlertV2ConfigMetric{}]. *)
Definition AlertV2ConfigMetric_zero : AlertV2ConfigMetric :=
  {| Scoped := ScopedSegmentedConfig_zero;
     ConditionOperator := EmptyString;
     Threshold := 0%float;
     WarningConditionOperator := EmptyString;
     WarningThreshold := None;
     TimeAggregation := EmptyString;
     GroupAggregation := EmptyString;
     Metric := {| Metric_ID := DescriptorID_zero; Metric_PublicID := EmptyString |};
     NoDataBehaviour := EmptyString |}.

(** Field assignments. *)
Definition set_Type (c : AlertV2Common) (t : AlertV2AlertType) : AlertV2Common :=
  {| ID := ID c; Type_ := t; Fields := Fields c |}.

Definition set_ID (a : AlertV2Metric) (id : Z) : AlertV2Metric :=
  {| Common := {| ID := id; Type_ := Type_ (Common a); Fields := Fields (Common a) |};
     Config := Config a |}.

Definition set_Scoped (c : AlertV2ConfigMetric) (v : ScopedSegmentedConfig) :=
  {| Scoped := v; ConditionOperator := ConditionOperator c; Threshold := Threshold c;
     WarningConditionOperator := WarningConditionOperator c;
     WarningThreshold := WarningThreshold c; TimeAggregation := TimeAggregation c;
     GroupAggregation := GroupAggregation c; Metric := Metric c;
     NoDataBehaviour := NoDataBehaviour c |}.

Definition set_ConditionOperator (c : AlertV2ConfigMetric) (v : string) :=
  {| Scoped := Scoped c; ConditionOperator := v; Threshold := Threshold c;
     WarningConditionOperator := WarningConditionOperator c;
     WarningThreshold := WarningThreshold c; TimeAggregation := TimeAggregation c;
     GroupAggregation := GroupAggregation c; Metric := Metric c;
     NoDataBehaviour := NoDataBehaviour c |}.

Definition set_Threshold (c : AlertV2ConfigMetric) (v : float) :=
  {| Scoped := Scoped c; ConditionOperator := ConditionOperator c; Threshold := v;
     WarningConditionOperator := WarningConditionOperator c;
     WarningThreshold := WarningThreshold c; TimeAggregation := TimeAggregation c;
     GroupAggregation := GroupAggregation c; Metric := Metric c;
     NoDataBehaviour := NoDataBehaviour c |}.

Definition set_WarningConditionOperator (c : AlertV2ConfigMetric) (v : string) :=
  {| Scoped := Scoped c; ConditionOperator := ConditionOperator c; Threshold := Threshold c;
     WarningConditionOperator := v;
     WarningThreshold := WarningThreshold c; TimeAggregation := TimeAggregation c;
     GroupAggregation := GroupAggregation c; Metric := Metric c;
     NoDataBehaviour := NoDataBehaviour c |}.

Definition set_WarningThreshold (c : AlertV2ConfigMetric) (v : option float) :=
  {| Scoped := Scoped c; ConditionOperator := ConditionOperator c; Threshold := Threshold c;
     WarningConditionOperator := WarningConditionOperator c;
     WarningThreshold := v; TimeAggregation := TimeAggregation c;
     GroupAggregation := GroupAggregation c; Metric := Metric c;
     NoDataBehaviour := NoDataBehaviour c |}.

Definition set_TimeAggregation (c : AlertV2ConfigMetric) (v : string) :=
  {| Scoped := Scoped c; ConditionOperator := ConditionOperator c; Threshold := Threshold c;
     WarningConditionOperator := WarningConditionOperator c;
     WarningThreshold := WarningThreshold c; TimeAggregation := v;
     GroupAggregation := GroupAggregation c; Metric := Metric c;
     NoDataBehaviour := NoDataBehaviour c |}.

Definition set_GroupAggregation (c : AlertV2ConfigMetric) (v : string) :=
  {| Scoped := Scoped c; ConditionOperator := ConditionOperator c; Threshold := Threshold c;
     WarningConditionOperator := WarningConditionOperator c;
     WarningThreshold := WarningThreshold c; TimeAggregation := TimeAggregation c;
     GroupAggregation := v; Metric := Metric c;
     NoDataBehaviour := NoDataBehaviour c |}.

Definition set_Metric (c : AlertV2ConfigMetric) (v : AlertMetricDescriptorV2) :=
  {| Scoped := Scoped c; ConditionOperator := ConditionOperator c; Threshold := Threshold c;
     WarningConditionOperator := WarningConditionOperator c;
     WarningThreshold := WarningThreshold c; TimeAggregation := TimeAggregation c;
     GroupAggregation := GroupAggregation c; Metric := v;
     NoDataBehaviour := NoDataBehaviour c |}.

Definition set_NoDataBehaviour (c : AlertV2ConfigMetric) (v : string) :=
  {| Scoped := Scoped c; ConditionOperator := ConditionOperator c; Threshold := Threshold c;
     WarningConditionOperator := WarningConditionOperator c;
     WarningThreshold := WarningThreshold c; TimeAggregation := TimeAggregation c;
     GroupAggregation := GroupAggregation c; Metric := Metric c;
     NoDataBehaviour := v |}.

(** *** The monitor client *)

(** A call of a client method, as the log records it. *)
Inductive Call : Type :=
| CallGetLabelDescriptor (label : string)
| CallCreateAlertV2Metric (alert : AlertV2Metric)
| CallGetAlertV2MetricById (alertID : Z)
| CallUpdateAlertV2Metric (alert : AlertV2Metric)
| CallDeleteAlertV2Metric (alertID : Z).

(** The calls made so far, oldest first, and the remote state. *)
Record World : Type := { calls : list Call; remote : Remote }.

(** The methods of [monitor.SysdigMonitorClient] the resource calls, each
    as its answer in a given remote state. *)
Record SysdigMonitorClient : Type := {
  GetLabelDescriptor_in : string -> Remote -> result LabelDescriptorV3Wrapper * Remote;
  CreateAlertV2Metric_in : AlertV2Metric -> Remote -> result AlertV2Metric * Remote;
  GetAlertV2MetricById_in : Z -> Remote -> result AlertV2Metric * Remote;
  UpdateAlertV2Metric_in : AlertV2Metric -> Remote -> result AlertV2Metric * Remote;
  DeleteAlertV2Metric_in : Z -> Remote -> option error * Remote
}.

(** A method call: logged, then answered. *)
Definition invoke {A : Type} (c : Call) (f : Remote -> A * Remote) : M World A :=
  fun w =>
    let '(a, r') := f (remote w) in
    (a, {| calls := calls w ++ [c]; remote := r' |}).

Definition GetLabelDescriptor (client : SysdigMonitorClient) (label : string) :=
  invoke (CallGetLabelDescriptor label) (GetLabelDescriptor_in client label).
Definition CreateAlertV2Metric (client : SysdigMonitorClient) (alert : AlertV2Metric) :=
  invoke (CallCreateAlertV2Metric alert) (CreateAlertV2Metric_in client alert).
Definition GetAlertV2MetricById (client : SysdigMonitorClient) (alertID : Z) :=
  invoke (CallGetAlertV2MetricById alertID) (GetAlertV2MetricById_in client alertID).
Definition UpdateAlertV2Metric (client : SysdigMonitorClient) (alert : AlertV2Metric) :=
  invoke (CallUpdateAlertV2Metric alert) (UpdateAlertV2Metric_in client alert).
Definition DeleteAlertV2Metric (client : SysdigMonitorClient) (alertID : Z) :=
  invoke (CallDeleteAlertV2Metric alertID) (DeleteAlertV2Metric_in client alertID).

(** The provider's meta value [i.(SysdigClients)]. *)
Record SysdigClients : Type := {
  sysdigMonitorClient : result SysdigMonitorClient
}.

Definition ResourceData : Type := schema.ResourceData OtherAttributes.

(** The functions of the package that the resource file calls and that are
    defined in other files. *)
Class Helpers : Type := {
  buildAlertV2CommonStruct :
    ResourceData -> SysdigMonitorClient -> M World (result AlertV2Common);
  buildScopedSegmentedConfigStruct :
    ResourceData -> SysdigMonitorClient -> ScopedSegmentedConfig ->
    M World (ScopedSegmentedConfig * option error);
  updateAlertV2CommonState :
    ResourceData -> AlertV2Common -> ResourceData * option error;
  updateScopedSegmentedConfigState :
    ResourceData -> ScopedSegmentedConfig -> ResourceData * option error
}.

Context `{Helpers}.

Abbreviation Schema := resourceSysdigMonitorAlertV2Metric_Schema (only parsing).

Definition buildAlertV2MetricStruct (d : ResourceData) (client : SysdigMonitorClient)
  : M World (option AlertV2Metric * option error) :=
  let* r := buildAlertV2CommonStruct d client in
  match r with
  | Err e => ret (None, Some e)
  | Ok alertV2Common =>
      let alertV2Common := set_Type alertV2Common AlertV2AlertType_Manual in
      let config := AlertV2ConfigMetric_zero in
      let* r := buildScopedSegmentedConfigStruct d client (Scoped config) in
      match r with
      | (_, Some e) => ret (None, Some e)
      | (scoped, None) =>
          let config := set_Scoped config scoped in
          (* ConditionOperator *)
          let config := set_ConditionOperator config (schema.Get_string Schema d "op") in
          (* threshold *)
          let config := set_Threshold config (schema.Get_float d "threshold") in
          (* WarningThreshold *)
          let config :=
            match schema.GetOk_float d "warning_threshold" with
            | (warningThreshold, true) =>
                let config := set_WarningThreshold config (Some warningThreshold) in
                set_WarningConditionOperator config (ConditionOperator config)
            | (_, false) => config
            end in
          (* TimeAggregation *)
          let config :=
            set_TimeAggregation config (schema.Get_string Schema d "time_aggregation") in
          (* GroupAggregation *)
          let config :=
            set_GroupAggregation config (schema.Get_string Schema d "group_aggregation") in
          (* Metric *)
          let metric := schema.Get_string Schema d "metric" in
          let* r := GetLabelDescriptor client metric in
          match r with
          | Err e =>
              ret (None,
                   Some (fmt.Errorf "error getting descriptor for label %s: %w"
                           [fmt.str metric; fmt.err e]))
          | Ok labelDescriptorV3 =>
              let config :=
                set_Metric config
                  {| Metric_ID := Descriptor_ID (LabelDescriptor labelDescriptorV3);
                     Metric_PublicID := Descriptor_PublicID (LabelDescriptor labelDescriptorV3) |} in
              let config :=
                set_NoDataBehaviour config (schema.Get_string Schema d "no_data_behaviour") in
              ret (Some {| Common := alertV2Common; Config := Some config |}, None)
          end
      end
  end.

(** The error every [d.Set] returns is discarded ([_ = d.Set(...)]).  With
    a nil [Config] the function panics where it first dereferences it, in
    the argument of [updateScopedSegmentedConfigState], after
    [updateAlertV2CommonState] has run; the resource data is returned as it
    is at that point. *)
Definition updateAlertV2MetricState (d : ResourceData) (alert : AlertV2Metric)
  : ResourceData * outcome (option error) :=
  let '(d, err) := updateAlertV2CommonState d (Common alert) in
  match err with
  | Some e => (d, Returned (Some e))
  | None =>
      match Config alert with
      | None => (d, Panicked)
      | Some config =>
          let '(d, err) := updateScopedSegmentedConfigState d (Scoped config) in
          match err with
          | Some e => (d, Returned (Some e))
          | None =>
              let d := fst (schema.Set_string Schema d "op" (ConditionOperator config)) in
              let d := fst (schema.Set_float Schema d "threshold" (Threshold config)) in
              let d :=
                match WarningThreshold config with
                | Some wt => fst (schema.Set_float Schema d "warning_threshold" wt)
                | None => d
                end in
              let d :=
                fst (schema.Set_string Schema d "time_aggregation" (TimeAggregation config)) in
              let d :=
                fst (schema.Set_string Schema d "group_aggregation"
                       (GroupAggregation config)) in
              let d :=
                fst (schema.Set_string Schema d "metric" (Metric_PublicID (Metric config))) in
              let d :=
                fst (schema.Set_string Schema d "no_data_behaviour"
                       (NoDataBehaviour config)) in
              (d, Returned None)
          end
      end
  end.

(** *** The lifecycle handlers

    A handler returns its diagnostics ([nil] is the empty list) together
    with the resource data it leaves behind; it panics when
    [updateAlertV2MetricState] does. *)

Definition resourceSysdigMonitorAlertV2MetricCreate (d : ResourceData) (i : SysdigClients)
  : M World (outcome diag.Diagnostics * ResourceData) :=
  match sysdigMonitorClient i with
  | Err e => ret (Returned (diag.FromErr (Some e)), d)
  | Ok client =>
      let* r := buildAlertV2MetricStruct d client in
      match r with
      | (_, Some e) => ret (Returned (diag.FromErr (Some e)), d)
      | (None, None) => ret (Panicked, d)
      | (Some a, None) =>
          let* r := CreateAlertV2Metric client a in
          match r with
          | Err e => ret (Returned (diag.FromErr (Some e)), d)
          | Ok aCreated =>
              let d := schema.SetId d (strconv.Itoa (ID (Common aCreated))) in
              let '(d, err) := updateAlertV2MetricState d aCreated in
              match err with
              | Panicked => ret (Panicked, d)
              | Returned (Some e) => ret (Returned (diag.FromErr (Some e)), d)
              | Returned None => ret (Returned [], d)
              end
          end
      end
  end.

Definition resourceSysdigMonitorAlertV2MetricRead (d : ResourceData) (i : SysdigClients)
  : M World (outcome diag.Diagnostics * ResourceData) :=
  match sysdigMonitorClient i with
  | Err e => ret (Returned (diag.FromErr (Some e)), d)
  | Ok client =>
      let '(id, err) := strconv.Atoi Quote (schema.Id d) in
      match err with
      | Some e => ret (Returned (diag.FromErr (Some e)), d)
      | None =>
          let* r := GetAlertV2MetricById client id in
          match r with
          | Err _ => ret (Returned [], schema.SetId d EmptyString)
          | Ok a =>
              let '(d, err) := updateAlertV2MetricState d a in
              match err with
              | Panicked => ret (Panicked, d)
              | Returned (Some e) => ret (Returned (diag.FromErr (Some e)), d)
              | Returned None => ret (Returned [], d)
              end
          end
      end
  end.

Definition resourceSysdigMonitorAlertV2MetricUpdate (d : ResourceData) (i : SysdigClients)
  : M World (outcome diag.Diagnostics * ResourceData) :=
  match sysdigMonitorClient i with
  | Err e => ret (Returned (diag.FromErr (Some e)), d)
  | Ok client =>
      let* r := buildAlertV2MetricStruct d client in
      match r with
      | (_, Some e) => ret (Returned (diag.FromErr (Some e)), d)
      | (None, None) => ret (Panicked, d)
      | (Some a, None) =>
          let a := set_ID a (fst (strconv.Atoi Quote (schema.Id d))) in
          let* r := UpdateAlertV2Metric client a in
          match r with
          | Err e => ret (Returned (diag.FromErr (Some e)), d)
          | Ok aUpdated =>
              let '(d, err) := updateAlertV2MetricState d aUpdated in
              match err with
              | Panicked => ret (Panicked, d)
              | Returned (Some e) => ret (Returned (diag.FromErr (Some e)), d)
              | Returned None => ret (Returned [], d)
              end
          end
      end
  end.

Definition resourceSysdigMonitorAlertV2MetricDelete (d : ResourceData) (i : SysdigClients)
  : M World (outcome diag.Diagnostics * ResourceData) :=
  match sysdigMonitorClient i with
  | Err e => ret (Returned (diag.FromErr (Some e)), d)
  | Ok client =>
      let '(id, err) := strconv.Atoi Quote (schema.Id d) in
      match err with
      | Some e => ret (Returned (diag.FromErr (Some e)), d)
      | None =>
          let* err := DeleteAlertV2Metric client id in
          match err with
          | Some e => ret (Returned (diag.FromErr (Some e)), d)
          | None => ret (Returned [], d)
          end
      end
  end.

End Resource.

End sysdig.

(** ** The vocabulary of the specification for the cloudauth client *)

Module cloudauth.
Import v2.

Inductive Operation : Type := OpCreate | OpGet | OpUpdate | OpDelete.

(** The accepted status codes of each operation, as the specification
    lists them. *)
Definition accepted (op : Operation) : list Z :=
  match op with
  | OpCreate => [200; 201]
  | OpGet => [200]
  | OpUpdate => [200]
  | OpDelete => [200; 204]
  end.

Section Operations.
Context `{Collaborators}.

(** The four operations under one signature; Delete returns no struct. *)
Definition run (op : Operation) (client : Client) (accountID : string)
    (cloudAccount : CloudauthAccountSecure)
  : M Net (option CloudauthAccountSecure * option error) :=
  match op with
  | OpCreate => CreateCloudauthAccountSecure client cloudAccount
  | OpGet => GetCloudauthAccountSecure client accountID
  | OpUpdate => UpdateCloudauthAccountSecure client accountID cloudAccount
  | OpDelete => let* e := DeleteCloudauthAccountSecure client accountID in ret (None, e)
  end.

(** The request of each operation, as the specification describes the REST
    interface: the verb, the collection or item endpoint under the base
    URL, and a payload for Create and Update. *)
Definition endpoint (op : Operation) (client : Client) (accountID : string)
    (payload : Payload) : Request :=
  let base := url (config client) in
  match op with
  | OpCreate => {| Method := "POST";
                   URL := base +:+ "/api/cloudauth/v1/accounts";
                   Payload_of := Some payload |}
  | OpGet => {| Method := "GET";
                URL := base +:+ "/api/cloudauth/v1/accounts/" +:+ accountID;
                Payload_of := None |}
  | OpUpdate => {| Method := "PUT";
                   URL := base +:+ "/api/cloudauth/v1/accounts/" +:+ accountID;
                   Payload_of := Some payload |}
  | OpDelete => {| Method := "DELETE";
                   URL := base +:+ "/api/cloudauth/v1/accounts/" +:+ accountID;
                   Payload_of := None |}
  end.

(** The world after one request. *)
Definition after (n : Net) (r : Request) (s' : Server) : Net :=
  {| sent := sent n ++ [r]; server := s' |}.

End Operations.

(** A remote end for examples: accounts are their names, payloads and
    bodies are text, [Marshal] and [Unmarshal] copy, [ErrorFromResponse]
    makes an error of the body, and the server answers every request with
    the status code that is its state. *)
Definition exampleCollaborators : Collaborators :=
  {| CloudauthAccountSecure := string;
     Payload := string;
     ReadCloser := string;
     Server := Z;
     Marshal := fun a => Ok a;
     Unmarshal := fun b => (Some b, None);
     ErrorFromResponse_of := fun _ body => Some (errors.New body);
     respond_to := fun _ _ _ s => (Ok (s, "account not found"), s) |}.

Definition exampleClient : Client :=
  {| config := {| url := "https://secure.example.com" |} |}.

Definition exampleNet (status : Z) : @Net exampleCollaborators :=
  @Build_Net exampleCollaborators [] status.

End cloudauth.

(** ** The vocabulary of the specification for the metric alert resource *)

Module alert.
Import sysdig.

Section Vocabulary.
Context `{Monitor} `{!Helpers}.

Abbreviation Schema := resourceSysdigMonitorAlertV2Metric_Schema (only parsing).

(** The resource data as the helper functions that
    [updateAlertV2MetricState] calls leave it: what the function's own
    writes start from. *)
Definition afterHelpers (d : ResourceData) (alert : AlertV2Metric) : ResourceData :=
  let '(d1, err) := updateAlertV2CommonState d (Common alert) in
  match err, Config alert with
  | None, Some config => fst (updateScopedSegmentedConfigState d1 (Scoped config))
  | _, _ => d1
  end.

(** The world after one call of the client. *)
Definition called (w : World) (c : Call) (r' : Remote) : World :=
  {| calls := calls w ++ [c]; remote := r' |}.

(** The configuration part of the struct that [buildAlertV2MetricStruct]
    returns for the data [d], the scope [scoped] and the descriptor
    [descriptor]. *)
Definition configOf (d : ResourceData) (scoped : ScopedSegmentedConfig)
    (descriptor : LabelDescriptorV3Wrapper) : AlertV2ConfigMetric :=
  {| Scoped := scoped;
     ConditionOperator := schema.Get_string Schema d "op";
     Threshold := schema.Get_float d "threshold";
     WarningConditionOperator :=
       if snd (schema.GetOk_float d "warning_threshold")
       then schema.Get_string Schema d "op" else EmptyString;
     WarningThreshold :=
       if snd (schema.GetOk_float d "warning_threshold")
       then Some (schema.Get_float d "warning_threshold") else None;
     TimeAggregation := schema.Get_string Schema d "time_aggregation";
     GroupAggregation := schema.Get_string Schema d "group_aggregation";
     Metric := {| Metric_ID := Descriptor_ID (LabelDescriptor descriptor);
                  Metric_PublicID := Descriptor_PublicID (LabelDescriptor descriptor) |};
     NoDataBehaviour := schema.Get_string Schema d "no_data_behaviour" |}.

(** The resource data after the function's own writes of the
    configuration [config], starting from [d]. *)
Definition written (d : ResourceData) (config : AlertV2ConfigMetric) : ResourceData :=
  {| schema.Id := schema.Id d;
     schema.strings :=
       <["no_data_behaviour" := NoDataBehaviour config]>
         (<["metric" := Metric_PublicID (Metric config)]>
            (<["group_aggregation" := GroupAggregation config]>
               (<["time_aggregation" := TimeAggregation config]>
                  (<["op" := ConditionOperator config]> (schema.strings d)))));
     schema.floats :=
       match WarningThreshold config with
       | Some wt =>
           <["warning_threshold" := wt]>
             (<["threshold" := Threshold config]> (schema.floats d))
       | None => <["threshold" := Threshold config]> (schema.floats d)
       end;
     schema.other := schema.other d |}.

(** What a handler returns for an outcome of [updateAlertV2MetricState]:
    the panic, or the diagnostics of the error ([nil] for no error). *)
Definition reported (o : outcome (option error)) : outcome diag.Diagnostics :=
  match o with
  | Panicked => Panicked
  | Returned err => Returned (diag.FromErr err)
  end.

End Vocabulary.

(** An instance for examples: the alert type, the common fields (the
    alert's name), the scope and a descriptor's ID are text, the other
    attributes are the name and the scope, the remote state is the last
    alert ID given out, and [Quote] puts its argument between quotation
    marks. *)
Definition exampleMonitor : Monitor :=
  {| AlertV2AlertType := string;
     AlertV2AlertType_Manual := "MANUAL";
     CommonFields := string;
     ScopedSegmentedConfig := string;
     ScopedSegmentedConfig_zero := EmptyString;
     DescriptorID := string;
     DescriptorID_zero := EmptyString;
     OtherAttributes := string * string;
     Remote := Z;
     Quote := fun s => String "034" (s +:+ String "034" EmptyString) |}.

Definition exampleHelpers : @Helpers exampleMonitor :=
  @Build_Helpers exampleMonitor
    (fun d _ =>
       ret (Ok (@Build_AlertV2Common exampleMonitor 0 EmptyString (fst (schema.other d)))))
    (fun d _ _ => ret (snd (schema.other d), None))
    (fun d c =>
       (schema.Build_ResourceData _ (schema.Id d) (schema.strings d) (schema.floats d)
          (@Fields exampleMonitor c, snd (schema.other d)), None))
    (fun d s =>
       (schema.Build_ResourceData _ (schema.Id d) (schema.strings d) (schema.floats d)
          (fst (schema.other d), s), None)).

(** A client that answers: a descriptor lookup gives the label as ID and
    [publicID label] as public ID, Create gives out the next alert ID,
    Get and Update hand back an alert, Delete succeeds. *)
Definition answeringClient (publicID : string -> string)
    (stored : @AlertV2Metric exampleMonitor) : @SysdigMonitorClient exampleMonitor :=
  @Build_SysdigMonitorClient exampleMonitor
    (fun label r =>
       (Ok (@Build_LabelDescriptorV3Wrapper exampleMonitor
              (@Build_LabelDescriptorV3 exampleMonitor label (publicID label))), r))
    (fun a r => (Ok (@set_ID exampleMonitor a (r + 1)), (r + 1)%Z))
    (fun _ r => (Ok stored, r))
    (fun a r => (Ok a, r))
    (fun _ r => (None, r)).

(** A client every method of which fails with the same error. *)
Definition failingClient (e : error) : @SysdigMonitorClient exampleMonitor :=
  @Build_SysdigMonitorClient exampleMonitor
    (fun _ r => (Err e, r))
    (fun _ r => (Err e, r))
    (fun _ r => (Err e, r))
    (fun _ r => (Err e, r))
    (fun _ r => (Some e, r)).

(** A client whose descriptor lookup answers and whose other methods
    fail. *)
Definition brokenClient (e : error) : @SysdigMonitorClient exampleMonitor :=
  @Build_SysdigMonitorClient exampleMonitor
    (fun label r =>
       (Ok (@Build_LabelDescriptorV3Wrapper exampleMonitor
              (@Build_LabelDescriptorV3 exampleMonitor label label)), r))
    (fun _ r => (Err e, r))
    (fun _ r => (Err e, r))
    (fun _ r => (Err e, r))
    (fun _ r => (Some e, r)).

(** A client whose descriptor lookup answers and whose Create, Get and
    Update hand back [stored] whatever they are sent. *)
Definition replayingClient (stored : @AlertV2Metric exampleMonitor)
  : @SysdigMonitorClient exampleMonitor :=
  @Build_SysdigMonitorClient exampleMonitor
    (fun label r =>
       (Ok (@Build_LabelDescriptorV3Wrapper exampleMonitor
              (@Build_LabelDescriptorV3 exampleMonitor label label)), r))
    (fun _ r => (Ok stored, r))
    (fun _ r => (Ok stored, r))
    (fun _ r => (Ok stored, r))
    (fun _ r => (None, r)).

Definition unavailable : error := errors.New "503 Service Unavailable".

(** The configuration [op = ">"], [threshold = 90.0], with or without a
    [warning_threshold], for the metric [metric]. *)
Definition exampleData (id : string) (metric : string) (warning : option float)
  : @ResourceData exampleMonitor :=
  schema.Build_ResourceData _ id
    (<["op" := ">"]> (<["metric" := metric]> (<["time_aggregation" := "avg"]>
       (<["group_aggregation" := "max"]> ∅))))
    (match warning with
     | Some wt => <["warning_threshold" := wt]> (<["threshold" := 90%float]> ∅)
     | None => <["threshold" := 90%float]> ∅
     end)
    ("cpu high", "host.hostName").

Definition exampleWorld : @World exampleMonitor :=
  @Build_World exampleMonitor [] 6.

(** The struct built from [exampleData] when the lookup gives [publicID]
    as the metric's public ID. *)
Definition exampleConfig (publicID : string) (warning : option float)
  : @AlertV2ConfigMetric exampleMonitor :=
  @Build_AlertV2ConfigMetric exampleMonitor "host.hostName" ">" 90%float
    (match warning with Some _ => ">" | None => EmptyString end) warning
    "avg" "max"
    (@Build_AlertMetricDescriptorV2 exampleMonitor "cpu.used.percent" publicID)
    "DO_NOTHING".

Definition exampleStruct (publicID : string) (warning : option float)
  : @AlertV2Metric exampleMonitor :=
  @Build_AlertV2Metric exampleMonitor
    (@Build_AlertV2Common exampleMonitor 0 "MANUAL" "cpu high")
    (Some (exampleConfig publicID warning)).

(** An alert as a client may return it: without configuration. *)
Definition bareAlert : @AlertV2Metric exampleMonitor :=
  @Build_AlertV2Metric exampleMonitor
    (@Build_AlertV2Common exampleMonitor 7 "MANUAL" "cpu high") None.

Definition exampleAlert : @AlertV2Metric exampleMonitor :=
  exampleStruct "cpu.used.percent" None.

(** Helper functions for examples that fail where an error is given: the
    first error is that of [buildAlertV2CommonStruct] and of
    [updateAlertV2CommonState], the second that of the two scope
    functions. *)
Definition refusingHelpers (common scoped : option error) : @Helpers exampleMonitor :=
  @Build_Helpers exampleMonitor
    (fun d _ =>
       ret (match common with
            | Some e => Err e
            | None => Ok (@Build_AlertV2Common exampleMonitor 0 EmptyString
                            (fst (schema.other d)))
            end))
    (fun d _ _ => ret (snd (schema.other d), scoped))
    (fun d _ => (d, common))
    (fun d _ => (d, scoped)).

Definition invalid : error := errors.New "invalid scope expression".

(** Helper functions for examples like [exampleHelpers], except that
    [buildAlertV2CommonStruct] gives the struct the ID 5. *)
Definition numberingHelpers : @Helpers exampleMonitor :=
  @Build_Helpers exampleMonitor
    (fun d _ =>
       ret (Ok (@Build_AlertV2Common exampleMonitor 5 EmptyString (fst (schema.other d)))))
    (fun d _ _ => ret (snd (schema.other d), None))
    (fun d _ => (d, None))
    (fun d _ => (d, None)).

(** The struct built from [exampleData] with [numberingHelpers]. *)
Definition numberedStruct : @AlertV2Metric exampleMonitor :=
  @Build_AlertV2Metric exampleMonitor
    (@Build_AlertV2Common exampleMonitor 5 "MANUAL" "cpu high")
    (Some (exampleConfig "cpu.used.percent" None)).

End alert.

(** * The configurations of the group mapping acceptance test *)

Module sysdig_test.

(** A quotation mark, and a raw string literal given by its lines: the
    literals of the source open with a line break and end each line with
    one. *)
Definition q : string := String "034" EmptyString.

Definition lines (l : list string) : string :=
  fold_right (fun line rest => line +:+ String "010" rest) EmptyString l.

Definition groupMappingAllTeams_format : string :=
  lines [
    EmptyString;
    "resource " +:+ q +:+ "sysdig_group_mapping" +:+ q +:+ " " +:+ q +:+ "all_teams" +:+ q
      +:+ " {";
    "  group_name = " +:+ q +:+ "%s" +:+ q;
    "  role = " +:+ q +:+ "ROLE_TEAM_STANDARD" +:+ q;
    "  team_map {";
    "    all_teams = true";
    "  }";
    "}"
  ].

Definition groupMappingAllTeams (groupName : string) : string :=
  fmt.Sprintf groupMappingAllTeams_format [fmt.str groupName].

Definition groupMappingUpdateAllTeamsGroupName_format : string :=
  lines [
    EmptyString;
    "resource " +:+ q +:+ "sysdig_group_mapping" +:+ q +:+ " " +:+ q +:+ "all_teams" +:+ q
      +:+ " {";
    "  group_name = " +:+ q +:+ "%s-updated" +:+ q;
    "  role = " +:+ q +:+ "ROLE_TEAM_STANDARD" +:+ q;
    "  team_map {";
    "    all_teams = true";
    "  }";
    "}"
  ].

Definition groupMappingUpdateAllTeamsGroupName (groupName : string) : string :=
  fmt.Sprintf groupMappingUpdateAllTeamsGroupName_format [fmt.str groupName].

(** The text of both configurations before and after the group name. *)
Definition before_name : string :=
  lines [
    EmptyString;
    "resource " +:+ q +:+ "sysdig_group_mapping" +:+ q +:+ " " +:+ q +:+ "all_teams" +:+ q
      +:+ " {"
  ] +:+ "  group_name = " +:+ q.

Definition after_name : string :=
  q +:+ String "010" (lines [
    "  role = " +:+ q +:+ "ROLE_TEAM_STANDARD" +:+ q;
    "  team_map {";
    "    all_teams = true";
    "  }";
    "}"
  ]).

End sysdig_test.

(** * Checks of the embedded library functions *)

Example Atoi_decimal (Quote : string -> string) :
  strconv.Atoi Quote "42" = (42%Z, None)
  /\ strconv.Atoi Quote "-7" = ((-7)%Z, None)
  /\ strconv.Atoi Quote "+0" = (0%Z, None).
Proof. repeat split. Qed.

Example Atoi_syntax (Quote : string -> string) :
  fst (strconv.Atoi Quote "12a") = 0%Z
  /\ fst (strconv.Atoi Quote EmptyString) = 0%Z
  /\ fst (strconv.Atoi Quote "-") = 0%Z
  /\ snd (strconv.Atoi Quote " 1")
     = Some (strconv.NumError Quote "Atoi" " 1" strconv.ErrSyntax)
  /\ strconv.Atoi Quote "1x99999999999999999999"
     = (0%Z, Some (strconv.NumError Quote "Atoi" "1x99999999999999999999"
                     strconv.ErrSyntax)).
Proof. repeat split. Qed.

Example Atoi_overflow_first (Quote : string -> string) :
  strconv.Atoi Quote "99999999999999999999x"
  = (strconv.maxInt,
     Some (strconv.NumError Quote "Atoi" "99999999999999999999x" strconv.ErrRange))
  /\ strconv.Atoi Quote "-99999999999999999999x"
     = (strconv.minInt,
        Some (strconv.NumError Quote "Atoi" "-99999999999999999999x" strconv.ErrRange))
  /\ strconv.Atoi Quote "18446744073709551616"
     = (strconv.maxInt,
        Some (strconv.NumError Quote "Atoi" "18446744073709551616" strconv.ErrRange)).
Proof. repeat split. Qed.

Example Atoi_range (Quote : string -> string) :
  strconv.Atoi Quote "9223372036854775807" = (strconv.maxInt, None)
  /\ strconv.Atoi Quote "9223372036854775808"
     = (strconv.maxInt,
        Some (strconv.NumError Quote "Atoi" "9223372036854775808" strconv.ErrRange))
  /\ strconv.Atoi Quote "-9223372036854775808" = (strconv.minInt, None).
Proof. repeat split. Qed.

Example Itoa_decimal :
  strconv.Itoa 0 = "0" /\ strconv.Itoa 1234 = "1234" /\ strconv.Itoa (-5) = "-5".
Proof. repeat split. Qed.

Example Sprintf_verbs :
  fmt.Sprintf "%s/items/%s" [fmt.str "base"; fmt.str "7"] = "base/items/7"
  /\ fmt.Sprintf "100%" [] = "100%!(NOVERB)"
  /\ fmt.Sprintf "100%% of %s" [fmt.str "it"] = "100% of it"
  /\ fmt.Sprintf "%s" [] = "%!s(MISSING)".
Proof. repeat split. Qed.

Example GetOk_zero :
  schema.GetOk_float (alert.exampleData "7" "m" (Some 0%float)) "warning_threshold"
  = (0%float, false)
  /\ schema.GetOk_float (alert.exampleData "7" "m" (Some 80%float)) "warning_threshold"
     = (80%float, true)
  /\ schema.GetOk_float (alert.exampleData "7" "m" None) "warning_threshold"
     = (0%float, false).
Proof. repeat split. Qed.

Example Get_default :
  schema.Get_string sysdig.resourceSysdigMonitorAlertV2Metric_Schema
    (alert.exampleData "7" "m" None) "no_data_behaviour" = "DO_NOTHING".
Proof. reflexivity. Qed.

(** * Properties of the formatter *)

Lemma append_nil_r (s : string) : s +:+ EmptyString = s.
Proof.
  induction s as [|c s IH]; [reflexivity|].
  change (String c (s +:+ EmptyString) = String c s). now rewrite IH.
Qed.

(** The error [buildAlertV2MetricStruct] makes of a failed lookup: the
    metric name and the text of the cause, around the cause. *)
Lemma Errorf_descriptor (metric : string) (e : error) :
  fmt.Errorf "error getting descriptor for label %s: %w" [fmt.str metric; fmt.err e]
  = wrapError ("error getting descriptor for label " +:+ metric +:+ ": " +:+ Error e) e.
Proof.
  unfold fmt.Errorf. cbn. now rewrite append_nil_r.
Qed.

(** * Properties of the cloudauth client *)

Module cloudauth_properties.
Import v2 cloudauth.

Section Properties.
Context `{Collaborators}.

Lemma cloudauthAccountsURL_eq (client : Client) :
  cloudauthAccountsURL client = url (config client) +:+ "/api/cloudauth/v1/accounts".
Proof. reflexivity. Qed.

Lemma cloudauthAccountURL_eq (client : Client) (accountID : string) :
  cloudauthAccountURL client accountID
  = url (config client) +:+ "/api/cloudauth/v1/accounts/" +:+ accountID.
Proof.
  unfold cloudauthAccountURL, fmt.Sprintf, cloudauthAccountPath. cbn.
  now rewrite append_nil_r.
Qed.

(** One request: it is logged and the remote end's answer is returned. *)
Lemma requester_Request_answer (method target : string) (payload : option Payload)
    (n : Net) (a : result Response) (s' : Server) :
  respond {| Method := method; URL := target; Payload_of := payload |} (server n) = (a, s') ->
  requester_Request method target payload n
  = (a, {| sent := sent n ++ [{| Method := method; URL := target; Payload_of := payload |}];
           server := s' |}).
Proof. intros E. unfold requester_Request. now rewrite E. Qed.

Lemma not_in_cons_inv (x y : Z) (l : list Z) : ~ In x (y :: l) -> (x =? y)%Z = false /\ ~ In x l.
Proof.
  intros N. split.
  - apply Z.eqb_neq. intros ->. apply N. now left.
  - intros I. apply N. now right.
Qed.


Section Answered.
Variables (client : Client) (accountID : string)
          (cloudAccount : CloudauthAccountSecure) (payload : Payload)
          (n : Net) (response : Response) (s' : Server).
Hypothesis marshalled : Marshal cloudAccount = Ok payload.

Lemma Create_answered :
  respond (endpoint OpCreate client accountID payload) (server n) = (Ok response, s') ->
  CreateCloudauthAccountSecure client cloudAccount n
  = (if negb (StatusCode response =? 200)%Z && negb (StatusCode response =? 201)%Z
     then (None, ErrorFromResponse response)
     else Unmarshal (Body response),
     after n (endpoint OpCreate client accountID payload) s').
Proof.
  intros R. unfold CreateCloudauthAccountSecure, bind, http.MethodPost. rewrite marshalled.
  rewrite cloudauthAccountsURL_eq. cbn [endpoint] in R.
  rewrite (requester_Request_answer _ _ _ _ _ _ R).
  unfold http.StatusOK, http.StatusCreated.
  now destruct (negb _ && negb _).
Qed.

Lemma Get_answered :
  respond (endpoint OpGet client accountID payload) (server n) = (Ok response, s') ->
  GetCloudauthAccountSecure client accountID n
  = (if negb (StatusCode response =? 200)%Z
     then (None, ErrorFromResponse response)
     else Unmarshal (Body response),
     after n (endpoint OpGet client accountID payload) s').
Proof.
  intros R. unfold GetCloudauthAccountSecure, bind, http.MethodGet.
  rewrite cloudauthAccountURL_eq. cbn [endpoint] in R.
  rewrite (requester_Request_answer _ _ _ _ _ _ R).
  unfold http.StatusOK.
  now destruct (negb _).
Qed.

Lemma Update_answered :
  respond (endpoint OpUpdate client accountID payload) (server n) = (Ok response, s') ->
  UpdateCloudauthAccountSecure client accountID cloudAccount n
  = (if negb (StatusCode response =? 200)%Z
     then (None, ErrorFromResponse response)
     else Unmarshal (Body response),
     after n (endpoint OpUpdate client accountID payload) s').
Proof.
  intros R. unfold UpdateCloudauthAccountSecure, bind, http.MethodPut. rewrite marshalled.
  rewrite cloudauthAccountURL_eq. cbn [endpoint] in R.
  rewrite (requester_Request_answer _ _ _ _ _ _ R).
  unfold http.StatusOK.
  now destruct (negb _).
Qed.

Lemma Delete_answered :
  respond (endpoint OpDelete client accountID payload) (server n) = (Ok response, s') ->
  DeleteCloudauthAccountSecure client accountID n
  = (if negb (StatusCode response =? 204)%Z && negb (StatusCode response =? 200)%Z
     then ErrorFromResponse response
     else None,
     after n (endpoint OpDelete client accountID payload) s').
Proof.
  intros R. unfold DeleteCloudauthAccountSecure, bind, http.MethodDelete.
  rewrite cloudauthAccountURL_eq. cbn [endpoint] in R.
  rewrite (requester_Request_answer _ _ _ _ _ _ R).
  unfold http.StatusNoContent, http.StatusOK.
  now destruct (negb _ && negb _).
Qed.

End Answered.

(** C1: whenever the remote end answers an operation with a status code
    outside the operation's accepted set (200/201 for Create, 200 for Get
    and Update, 200/204 for Delete), the operation returns a nil struct
    together with the error [ErrorFromResponse] makes of the response,
    which is not nil as long as [ErrorFromResponse] never returns nil; for
    a code inside the set the result is what [Unmarshal] makes of the body
    (for Delete: no error). *)
Theorem status_outside_accepted_set_is_an_error
    (op : Operation) (client : Client) (accountID : string)
    (cloudAccount : CloudauthAccountSecure) (payload : Payload)
    (n : Net) (response : Response) (s' : Server) :
  (forall r : Response, ErrorFromResponse r <> None) ->
  Marshal cloudAccount = Ok payload ->
  respond (endpoint op client accountID payload) (server n) = (Ok response, s') ->
  (~ In (StatusCode response) (accepted op) ->
   exists e : error,
     ErrorFromResponse response = Some e
     /\ fst (run op client accountID cloudAccount n) = (None, Some e))
  /\ (In (StatusCode response) (accepted op) ->
      fst (run op client accountID cloudAccount n)
      = match op with
        | OpDelete => (None, None)
        | _ => Unmarshal (Body response)
        end).
Proof.
  intros nonnil HM R.
  destruct (ErrorFromResponse response) as [e|] eqn:E;
    [|now destruct (nonnil response)].
  destruct op; cbn [run accepted].
  - rewrite (Create_answered _ accountID _ _ _ _ _ HM R). split.
    + intros N. apply not_in_cons_inv in N as [-> N].
      apply not_in_cons_inv in N as [-> _]. exists e. now rewrite E.
    + intros [<-|[<-|[]]]; reflexivity.
  - rewrite (Get_answered _ _ payload _ _ _ R). split.
    + intros N. apply not_in_cons_inv in N as [-> _]. exists e. now rewrite E.
    + intros [<-|[]]; reflexivity.
  - rewrite (Update_answered _ _ _ _ _ _ _ HM R). split.
    + intros N. apply not_in_cons_inv in N as [-> _]. exists e. now rewrite E.
    + intros [<-|[]]; reflexivity.
  - unfold bind. rewrite (Delete_answered _ _ payload _ _ _ R). split.
    + intros N. apply not_in_cons_inv in N as [E1 N].
      apply not_in_cons_inv in N as [E2 _]. rewrite E1, E2. exists e. now rewrite E.
    + intros [<-|[<-|[]]]; reflexivity.
Qed.

(** C5: a Delete that is answered with status 404 returns an error, the
    one [ErrorFromResponse] makes of the response; Delete returns no error
    exactly for the codes 200 and 204. *)
Theorem delete_not_found_is_an_error
    (client : Client) (accountID : string) (payload : Payload)
    (n : Net) (response : Response) (s' : Server) :
  (forall r : Response, ErrorFromResponse r <> None) ->
  respond (endpoint OpDelete client accountID payload) (server n) = (Ok response, s') ->
  (StatusCode response = http.StatusNotFound ->
   exists e : error,
     ErrorFromResponse response = Some e
     /\ fst (DeleteCloudauthAccountSecure client accountID n) = Some e)
  /\ (fst (DeleteCloudauthAccountSecure client accountID n) = None
      <-> StatusCode response = 200 \/ StatusCode response = 204).
Proof.
  intros nonnil R. rewrite (Delete_answered _ _ payload _ _ _ R). cbn [fst].
  destruct (ErrorFromResponse response) as [e|] eqn:E;
    [|now destruct (nonnil response)].
  split.
  - intros ->. exists e. split; reflexivity.
  - destruct (Z.eqb_spec (StatusCode response) 204) as [->|N204];
      [cbn; split; [now right|reflexivity]|].
    destruct (Z.eqb_spec (StatusCode response) 200) as [->|N200];
      [cbn; split; [now left|reflexivity]|].
    cbn. split; [discriminate|]. now intros [?|?].
Qed.

(** C7: the collection endpoint is the base URL followed by
    [/api/cloudauth/v1/accounts], the item endpoint adds [/] and the
    account ID; Create sends one POST to the collection, Get one GET,
    Update one PUT and Delete one DELETE to the item, and the payload is
    what [Marshal] made of the account for Create and Update and absent for
    Get and Delete. *)
Theorem endpoints_and_verbs
    (client : Client) (accountID : string)
    (cloudAccount : CloudauthAccountSecure) (payload : Payload) (n : Net) :
  Marshal cloudAccount = Ok payload ->
  cloudauthAccountsURL client = url (config client) +:+ "/api/cloudauth/v1/accounts"
  /\ cloudauthAccountURL client accountID
     = url (config client) +:+ "/api/cloudauth/v1/accounts/" +:+ accountID
  /\ sent (snd (CreateCloudauthAccountSecure client cloudAccount n))
     = sent n ++ [{| Method := "POST"; URL := cloudauthAccountsURL client;
                     Payload_of := Some payload |}]
  /\ sent (snd (GetCloudauthAccountSecure client accountID n))
     = sent n ++ [{| Method := "GET"; URL := cloudauthAccountURL client accountID;
                     Payload_of := None |}]
  /\ sent (snd (UpdateCloudauthAccountSecure client accountID cloudAccount n))
     = sent n ++ [{| Method := "PUT"; URL := cloudauthAccountURL client accountID;
                     Payload_of := Some payload |}]
  /\ sent (snd (DeleteCloudauthAccountSecure client accountID n))
     = sent n ++ [{| Method := "DELETE"; URL := cloudauthAccountURL client accountID;
                     Payload_of := None |}].
Proof.
  intros HM.
  split; [apply cloudauthAccountsURL_eq|].
  split; [apply cloudauthAccountURL_eq|].
  unfold CreateCloudauthAccountSecure, GetCloudauthAccountSecure,
    UpdateCloudauthAccountSecure, DeleteCloudauthAccountSecure, bind.
  rewrite HM.
  unfold requester_Request.
  repeat split;
    (destruct (respond _ (server n)) as [[r|e] s1];
     [destruct (negb _); cbn [andb]; try destruct (negb _)|]; reflexivity).
Qed.

End Properties.

(** The theorems at the example remote end. *)

Lemma status_outside_accepted_set_is_an_error_witness :
  let response := @Build_Response exampleCollaborators 500 "account not found" in
  (~ In 500 (accepted OpUpdate) ->
   exists e : error,
     @ErrorFromResponse exampleCollaborators response = Some e
     /\ fst (@run exampleCollaborators OpUpdate exampleClient "acc-1" "acc-1" (exampleNet 500))
        = (None, Some e))
  /\ (In 500 (accepted OpUpdate) ->
      fst (@run exampleCollaborators OpUpdate exampleClient "acc-1" "acc-1" (exampleNet 500))
      = @Unmarshal exampleCollaborators "account not found").
Proof.
  apply (@status_outside_accepted_set_is_an_error exampleCollaborators OpUpdate
           exampleClient "acc-1" "acc-1" "acc-1" (exampleNet 500)
           (@Build_Response exampleCollaborators 500 "account not found") 500).
  - intros r. discriminate.
  - reflexivity.
  - reflexivity.
Defined.

Lemma delete_not_found_is_an_error_witness :
  let response := @Build_Response exampleCollaborators 404 "account not found" in
  (404 = http.StatusNotFound ->
   exists e : error,
     @ErrorFromResponse exampleCollaborators response = Some e
     /\ fst (@DeleteCloudauthAccountSecure exampleCollaborators exampleClient "acc-1"
               (exampleNet 404)) = Some e)
  /\ (fst (@DeleteCloudauthAccountSecure exampleCollaborators exampleClient "acc-1"
             (exampleNet 404)) = None
      <-> 404 = 200 \/ 404 = 204).
Proof.
  apply (@delete_not_found_is_an_error exampleCollaborators exampleClient "acc-1" "unused"
           (exampleNet 404)
           (@Build_Response exampleCollaborators 404 "account not found") 404).
  - intros r. discriminate.
  - reflexivity.
Defined.

Lemma endpoints_and_verbs_witness :
  @cloudauthAccountsURL exampleClient
  = "https://secure.example.com/api/cloudauth/v1/accounts"
  /\ @cloudauthAccountURL exampleClient "acc-1"
     = "https://secure.example.com/api/cloudauth/v1/accounts/acc-1"
  /\ sent (snd (@CreateCloudauthAccountSecure exampleCollaborators exampleClient "acc-1"
                  (exampleNet 201)))
     = [@Build_Request exampleCollaborators "POST"
          "https://secure.example.com/api/cloudauth/v1/accounts" (Some "acc-1")].
Proof.
  destruct (@endpoints_and_verbs exampleCollaborators exampleClient "acc-1" "acc-1" "acc-1"
              (exampleNet 201) eq_refl) as (U1 & U2 & S1 & _).
  split; [exact U1|]. split; [exact U2|]. exact S1.
Defined.

End cloudauth_properties.

(** * Properties of [strconv.Atoi] *)

Module strconv_properties.

Lemma digit_range (c : ascii) (v : Z) : strconv.digit c = Some v -> (0 <= v <= 9)%Z.
Proof.
  unfold strconv.digit.
  destruct (Z.leb_spec 48 (Z.of_nat (nat_of_ascii c)));
    destruct (Z.leb_spec (Z.of_nat (nat_of_ascii c)) 57); cbn [andb];
    intros E; inversion E; lia.
Qed.

Lemma digits_ge (s : string) (n v : Z) :
  (0 <= n)%Z -> strconv.digits s n = Some v -> (n <= v)%Z.
Proof.
  revert n. induction s as [|c s IH]; intros n N E; cbn [strconv.digits] in E.
  - inversion E. lia.
  - destruct (strconv.digit c) as [x|] eqn:D; [|discriminate].
    apply digit_range in D. apply IH in E; lia.
Qed.

(** On a string of digits the loop of [ParseUint] gives the number they
    spell, or the range error when that number leaves [uint64]. *)
Lemma ParseUint_from_digits (s : string) (n v : Z) :
  (0 <= n <= strconv.maxUint64)%Z ->
  strconv.digits s n = Some v ->
  strconv.ParseUint_from s n
  = if (v <=? strconv.maxUint64)%Z then (v, None)
    else (strconv.maxUint64, Some strconv.RangeError).
Proof.
  revert n. induction s as [|c s IH]; intros n N E;
    cbn [strconv.digits strconv.ParseUint_from] in *.
  - inversion E. subst v. destruct (Z.leb_spec n strconv.maxUint64); [reflexivity|lia].
  - destruct (strconv.digit c) as [x|] eqn:D; [|discriminate].
    apply digit_range in D.
    assert (G : (10 * n + x <= v)%Z) by (apply (digits_ge s); [lia|exact E]).
    change (strconv.maxUint64 / 10 + 1)%Z with 1844674407370955162%Z.
    change strconv.maxUint64 with 18446744073709551615%Z in *.
    destruct (Z.leb_spec 1844674407370955162 n).
    { destruct (Z.leb_spec v 18446744073709551615); [lia|reflexivity]. }
    destruct (Z.ltb_spec 18446744073709551615 (10 * n + x)).
    { destruct (Z.leb_spec v 18446744073709551615); [lia|reflexivity]. }
    apply IH; [lia|exact E].
Qed.


(** The sign and the rest of a string, as [parse] and [Atoi] split it. *)
Definition sign (s : string) : bool * string :=
  match s with
  | String "+" rest => (false, rest)
  | String "-" rest => (true, rest)
  | _ => (false, s)
  end.

Section Atoi.
Variable Quote : string -> string.

(** On a decimal numeral [Atoi] gives the number, or the nearest [int] and
    the range error when the number is no [int]. *)
Lemma Atoi_numeral (s : string) (neg : bool) (v : Z) :
  strconv.parse s = Some (neg, v) ->
  strconv.Atoi Quote s
  = let n := (if neg then - v else v)%Z in
    if (strconv.maxInt <? n)%Z
    then (strconv.maxInt, Some (strconv.NumError Quote "Atoi" s strconv.ErrRange))
    else if (n <? strconv.minInt)%Z
    then (strconv.minInt, Some (strconv.NumError Quote "Atoi" s strconv.ErrRange))
    else (n, None).
Proof.
  intros P.
  change (strconv.parse s)
    with (let '(ng, body) := sign s in
          match body with
          | EmptyString => None
          | _ => match strconv.digits body 0 with
                 | Some n => Some (ng, n)
                 | None => None
                 end
          end) in P.
  change (strconv.Atoi Quote s)
    with (let '(ng, body) := sign s in
          match strconv.ParseUint body with
          | (_, Some strconv.SyntaxError) =>
              (0%Z, Some (strconv.NumError Quote "Atoi" s strconv.ErrSyntax))
          | (un, _) =>
              let cutoff := (2 ^ 63)%Z in
              if negb ng && (cutoff <=? un)%Z
              then ((cutoff - 1)%Z, Some (strconv.NumError Quote "Atoi" s strconv.ErrRange))
              else if ng && (cutoff <? un)%Z
              then ((- cutoff)%Z, Some (strconv.NumError Quote "Atoi" s strconv.ErrRange))
              else ((if ng then - un else un)%Z, None)
          end).
  destruct (sign s) as [ng body].
  destruct body as [|c body]; [discriminate|].
  destruct (strconv.digits (String c body) 0) as [n|] eqn:D; [|discriminate].
  injection P as -> ->.
  assert (G : (0 <= v)%Z) by (apply (digits_ge (String c body)); [lia|exact D]).
  unfold strconv.ParseUint.
  rewrite (ParseUint_from_digits _ 0 v) by (first [exact D | unfold strconv.maxUint64; lia]).
  cbv zeta.
  change strconv.maxUint64 with 18446744073709551615%Z.
  change strconv.maxInt with 9223372036854775807%Z.
  change strconv.minInt with (-9223372036854775808)%Z.
  change (2 ^ 63)%Z with 9223372036854775808%Z.
  change (9223372036854775808 - 1)%Z with 9223372036854775807%Z.
  destruct (Z.leb_spec v 18446744073709551615); destruct neg; cbn [negb andb];
    repeat match goal with
           | |- context [(?a <=? ?b)%Z] => destruct (Z.leb_spec a b)
           | |- context [(?a <? ?b)%Z] => destruct (Z.ltb_spec a b)
           end; try reflexivity; lia.
Qed.


End Atoi.

End strconv_properties.

(** * Properties of the metric alert resource *)

Module alert_properties.
Import sysdig alert.

Section Properties.
Context `{Monitor} `{!Helpers}.

Abbreviation Schema := resourceSysdigMonitorAlertV2Metric_Schema (only parsing).

(** What [buildAlertV2MetricStruct] does once the two helper functions
    have succeeded: one descriptor lookup for the configured metric, and
    the struct or the wrapped error. *)
Lemma build_after_helpers (d : ResourceData) (client : SysdigMonitorClient)
    (w w1 w2 : World) (common : AlertV2Common) (scoped : ScopedSegmentedConfig) :
  buildAlertV2CommonStruct d client w = (Ok common, w1) ->
  buildScopedSegmentedConfigStruct d client ScopedSegmentedConfig_zero w1
  = ((scoped, None), w2) ->
  let metric := schema.Get_string Schema d "metric" in
  buildAlertV2MetricStruct d client w
  = match GetLabelDescriptor_in client metric (remote w2) with
    | (Err e, r3) =>
        ((None, Some (wrapError ("error getting descriptor for label " +:+ metric
                                 +:+ ": " +:+ Error e) e)),
         called w2 (CallGetLabelDescriptor metric) r3)
    | (Ok descriptor, r3) =>
        ((Some {| Common := set_Type common AlertV2AlertType_Manual;
                  Config := Some (configOf d scoped descriptor) |}, None),
         called w2 (CallGetLabelDescriptor metric) r3)
    end.
Proof.
  intros B1 B2 metric.
  unfold buildAlertV2MetricStruct, bind. rewrite B1. cbn [AlertV2ConfigMetric_zero Scoped].
  rewrite B2. unfold GetLabelDescriptor, invoke. fold metric.
  destruct (GetLabelDescriptor_in client metric (remote w2)) as [[descriptor|e] r3].
  - unfold ret, called, configOf. unfold schema.GetOk_float. cbn [snd].
    destruct (schema.floats d !! "warning_threshold") as [wt|] eqn:E.
    + destruct (negb (PrimFloat.eqb wt 0)); reflexivity.
    + reflexivity.
  - unfold ret, called. now rewrite Errorf_descriptor.
Qed.


(** A struct comes back only along the path on which both helper functions
    and the lookup have succeeded, and then without an error. *)
Lemma build_Some_inv (d : ResourceData) (client : SysdigMonitorClient)
    (w w' : World) (a : AlertV2Metric) (err : option error) :
  buildAlertV2MetricStruct d client w = ((Some a, err), w') ->
  exists common w1 scoped w2 descriptor r3,
    buildAlertV2CommonStruct d client w = (Ok common, w1)
    /\ buildScopedSegmentedConfigStruct d client ScopedSegmentedConfig_zero w1
       = ((scoped, None), w2)
    /\ GetLabelDescriptor_in client (schema.Get_string Schema d "metric") (remote w2)
       = (Ok descriptor, r3)
    /\ a = {| Common := set_Type common AlertV2AlertType_Manual;
              Config := Some (configOf d scoped descriptor) |}
    /\ err = None
    /\ w' = called w2 (CallGetLabelDescriptor (schema.Get_string Schema d "metric")) r3.
Proof.
  intros E.
  destruct (buildAlertV2CommonStruct d client w) as [[common|e] w1] eqn:B1.
  2:{ unfold buildAlertV2MetricStruct, bind in E. now rewrite B1 in E. }
  destruct (buildScopedSegmentedConfigStruct d client ScopedSegmentedConfig_zero w1)
    as [[scoped [e|]] w2] eqn:B2.
  { unfold buildAlertV2MetricStruct, bind in E. rewrite B1 in E.
    cbn [AlertV2ConfigMetric_zero Scoped] in E. now rewrite B2 in E. }
  rewrite (build_after_helpers _ _ _ _ _ _ _ B1 B2) in E.
  destruct (GetLabelDescriptor_in client _ (remote w2)) as [[descriptor|e] r3] eqn:L;
    [|discriminate].
  injection E as <- <- <-.
  exists common, w1, scoped, w2, descriptor, r3. repeat split; assumption.
Qed.

(** Without a struct there is an error: the function never returns nil
    twice. *)
Lemma build_None_inv (d : ResourceData) (client : SysdigMonitorClient)
    (w w' : World) (err : option error) :
  buildAlertV2MetricStruct d client w = ((None, err), w') -> err <> None.
Proof.
  intros E.
  destruct (buildAlertV2CommonStruct d client w) as [[common|e] w1] eqn:B1.
  2:{ unfold buildAlertV2MetricStruct, bind in E. rewrite B1 in E.
      injection E as <- _. discriminate. }
  destruct (buildScopedSegmentedConfigStruct d client ScopedSegmentedConfig_zero w1)
    as [[scoped [e|]] w2] eqn:B2.
  { unfold buildAlertV2MetricStruct, bind in E. rewrite B1 in E.
    cbn [AlertV2ConfigMetric_zero Scoped] in E. rewrite B2 in E.
    injection E as <- _. discriminate. }
  rewrite (build_after_helpers _ _ _ _ _ _ _ B1 B2) in E.
  destruct (GetLabelDescriptor_in client _ (remote w2)) as [[descriptor|e] r3];
    [discriminate|].
  injection E as <- _. discriminate.
Qed.

(** *** The writes of [updateAlertV2MetricState] *)

Lemma Set_string_declared (d : ResourceData) (key value : string) :
  schema.hasType Schema key schema.TypeString = true ->
  schema.Set_string Schema d key value
  = ({| schema.Id := schema.Id d;
        schema.strings := <[key := value]> (schema.strings d);
        schema.floats := schema.floats d;
        schema.other := schema.other d |}, None).
Proof. intros T. unfold schema.Set_string. now rewrite T. Qed.

Lemma Set_float_declared (d : ResourceData) (key : string) (value : float) :
  schema.hasType Schema key schema.TypeFloat = true ->
  schema.Set_float Schema d key value
  = ({| schema.Id := schema.Id d;
        schema.strings := schema.strings d;
        schema.floats := <[key := value]> (schema.floats d);
        schema.other := schema.other d |}, None).
Proof. intros T. unfold schema.Set_float. now rewrite T. Qed.

Lemma update_cases (d : ResourceData) (alert : AlertV2Metric) :
  updateAlertV2MetricState d alert
  = match updateAlertV2CommonState d (Common alert) with
    | (d1, Some e) => (d1, Returned (Some e))
    | (d1, None) =>
        match Config alert with
        | None => (d1, Panicked)
        | Some config =>
            match updateScopedSegmentedConfigState d1 (Scoped config) with
            | (d2, Some e) => (d2, Returned (Some e))
            | (d2, None) => (written d2 config, Returned None)
            end
        end
    end.
Proof.
  unfold updateAlertV2MetricState.
  destruct (updateAlertV2CommonState d (Common alert)) as [d1 [e|]]; [reflexivity|].
  destruct (Config alert) as [config|]; [|reflexivity].
  destruct (updateScopedSegmentedConfigState d1 (Scoped config)) as [d2 [e|]];
    [reflexivity|].
  rewrite !Set_string_declared, !Set_float_declared by reflexivity.
  unfold written. cbn [fst schema.Id schema.strings schema.floats schema.other].
  destruct (WarningThreshold config) as [wt|].
  - rewrite Set_float_declared by reflexivity. reflexivity.
  - reflexivity.
Qed.

(** [updateAlertV2MetricState] panics exactly on an alert without
    configuration for which [updateAlertV2CommonState] reports no error. *)
Lemma update_panics_iff (d : ResourceData) (alert : AlertV2Metric) :
  snd (updateAlertV2MetricState d alert) = Panicked
  <-> snd (updateAlertV2CommonState d (Common alert)) = None /\ Config alert = None.
Proof.
  rewrite update_cases.
  destruct (updateAlertV2CommonState d (Common alert)) as [d1 [e|]]; cbn [snd].
  { split; [discriminate|]. now intros [? _]. }
  destruct (Config alert) as [config|]; cbn [snd].
  - destruct (updateScopedSegmentedConfigState d1 (Scoped config)) as [d2 [e|]];
      (split; [discriminate|]); now intros [_ ?].
  - now split.
Qed.

Lemma written_reads (d : ResourceData) (config : AlertV2ConfigMetric) :
  schema.Get_string Schema (written d config) "op" = ConditionOperator config
  /\ schema.Get_float (written d config) "threshold" = Threshold config
  /\ schema.Get_string Schema (written d config) "time_aggregation"
     = TimeAggregation config
  /\ schema.Get_string Schema (written d config) "group_aggregation"
     = GroupAggregation config
  /\ schema.Get_string Schema (written d config) "metric"
     = Metric_PublicID (Metric config)
  /\ schema.Get_string Schema (written d config) "no_data_behaviour"
     = NoDataBehaviour config.
Proof.
  unfold schema.Get_string, schema.Get_float, written.
  cbn [schema.strings schema.floats].
  repeat split.
  - now rewrite !lookup_insert_ne, lookup_insert_eq by discriminate.
  - destruct (WarningThreshold config).
    + now rewrite lookup_insert_ne, lookup_insert_eq by discriminate.
    + now rewrite lookup_insert_eq.
  - now rewrite !lookup_insert_ne, lookup_insert_eq by discriminate.
  - now rewrite !lookup_insert_ne, lookup_insert_eq by discriminate.
  - now rewrite !lookup_insert_ne, lookup_insert_eq by discriminate.
  - now rewrite lookup_insert_eq.
Qed.

Lemma written_warning_threshold (d : ResourceData) (config : AlertV2ConfigMetric) :
  schema.floats (written d config) !! "warning_threshold"
  = match WarningThreshold config with
    | Some wt => Some wt
    | None => schema.floats d !! "warning_threshold"
    end.
Proof.
  unfold written. cbn [schema.floats].
  destruct (WarningThreshold config).
  - now rewrite lookup_insert_eq.
  - now rewrite lookup_insert_ne by discriminate.
Qed.

(** *** The request struct *)

(** C10: in every struct [buildAlertV2MetricStruct] returns, a warning
    threshold comes with a warning operator that is the main operator, the
    configured [op]. *)
Theorem warning_operator_is_the_operator (d : ResourceData)
    (client : SysdigMonitorClient) (w w' : World) (a : AlertV2Metric) :
  buildAlertV2MetricStruct d client w = ((Some a, None), w') ->
  exists config : AlertV2ConfigMetric,
    Config a = Some config
    /\ (WarningThreshold config <> None ->
        WarningConditionOperator config = ConditionOperator config
        /\ ConditionOperator config = schema.Get_string Schema d "op").
Proof.
  intros B.
  apply build_Some_inv in B as (common & w1 & scoped & w2 & descriptor & r3 & _ & _ & _ & -> & _).
  eexists. split; [reflexivity|]. intros W.
  cbn [configOf WarningThreshold WarningConditionOperator ConditionOperator] in *.
  destruct (snd (schema.GetOk_float d "warning_threshold")); [now split|].
  now destruct W.
Qed.

(** C4: when the configuration sets no [warning_threshold], the struct
    [buildAlertV2MetricStruct] returns has a nil [WarningThreshold] and an
    empty [WarningConditionOperator], and [updateAlertV2MetricState] with
    that struct leaves the [warning_threshold] of the resource data as the
    helper functions left it: it writes none. *)
Theorem omitted_warning_threshold_stays_out (d d0 : ResourceData)
    (client : SysdigMonitorClient) (w w' : World) (a : AlertV2Metric) :
  schema.floats d !! "warning_threshold" = None ->
  buildAlertV2MetricStruct d client w = ((Some a, None), w') ->
  exists config : AlertV2ConfigMetric,
    Config a = Some config
    /\ WarningThreshold config = None
    /\ WarningConditionOperator config = EmptyString
    /\ schema.floats (fst (updateAlertV2MetricState d0 a)) !! "warning_threshold"
       = schema.floats (afterHelpers d0 a) !! "warning_threshold".
Proof.
  intros O B.
  apply build_Some_inv in B as (common & w1 & scoped & w2 & descriptor & r3 & _ & _ & _ & -> & _).
  assert (N : WarningThreshold (configOf d scoped descriptor) = None).
  { unfold configOf, schema.GetOk_float. cbn. now rewrite O. }
  eexists. split; [reflexivity|].
  split; [exact N|]. split.
  - unfold configOf, schema.GetOk_float. cbn. now rewrite O.
  - rewrite update_cases. unfold afterHelpers.
    cbn [Common Config].
    destruct (updateAlertV2CommonState d0 _) as [d1 [e|]]; [reflexivity|].
    destruct (updateScopedSegmentedConfigState d1 _) as [d2 [e|]]; [reflexivity|].
    cbn [fst]. rewrite written_warning_threshold. now rewrite N.
Qed.

(** C6: when the lookup of the configured metric fails,
    [buildAlertV2MetricStruct] returns no struct and an error whose text
    names the metric and which unwraps to the lookup's error; the lookup is
    the last call it makes. *)
Theorem failed_lookup_is_wrapped (d : ResourceData) (client : SysdigMonitorClient)
    (w w1 w2 : World) (common : AlertV2Common) (scoped : ScopedSegmentedConfig)
    (e : error) (r3 : Remote) :
  buildAlertV2CommonStruct d client w = (Ok common, w1) ->
  buildScopedSegmentedConfigStruct d client ScopedSegmentedConfig_zero w1
  = ((scoped, None), w2) ->
  GetLabelDescriptor_in client (schema.Get_string Schema d "metric") (remote w2)
  = (Err e, r3) ->
  exists err : error,
    buildAlertV2MetricStruct d client w
    = ((None, Some err),
       called w2 (CallGetLabelDescriptor (schema.Get_string Schema d "metric")) r3)
    /\ Unwrap err = Some e
    /\ Error err
       = "error getting descriptor for label " +:+ schema.Get_string Schema d "metric"
         +:+ ": " +:+ Error e.
Proof.
  intros B1 B2 L.
  rewrite (build_after_helpers _ _ _ _ _ _ _ B1 B2), L.
  eexists. split; [reflexivity|]. split; reflexivity.
Qed.

(** *** Struct and state *)

(** C2, as the code has it: after building the struct from [d] and mapping
    it into any resource data [d0], the fields [op], [threshold],
    [time_aggregation], [group_aggregation] and [no_data_behaviour] read as
    in [d], and so does [warning_threshold] when [d.GetOk] reports it; the
    field [metric] reads as the public ID of the descriptor the lookup
    returned for the configured name. *)
Theorem roundtrip_up_to_the_descriptor (d d0 d' : ResourceData)
    (client : SysdigMonitorClient) (w w' : World) (a : AlertV2Metric) :
  buildAlertV2MetricStruct d client w = ((Some a, None), w') ->
  updateAlertV2MetricState d0 a = (d', Returned None) ->
  schema.Get_string Schema d' "op" = schema.Get_string Schema d "op"
  /\ schema.Get_float d' "threshold" = schema.Get_float d "threshold"
  /\ (snd (schema.GetOk_float d "warning_threshold") = true ->
      schema.floats d' !! "warning_threshold"
      = Some (schema.Get_float d "warning_threshold"))
  /\ schema.Get_string Schema d' "time_aggregation"
     = schema.Get_string Schema d "time_aggregation"
  /\ schema.Get_string Schema d' "group_aggregation"
     = schema.Get_string Schema d "group_aggregation"
  /\ schema.Get_string Schema d' "no_data_behaviour"
     = schema.Get_string Schema d "no_data_behaviour"
  /\ exists (descriptor : LabelDescriptorV3Wrapper) (r r' : Remote),
       GetLabelDescriptor_in client (schema.Get_string Schema d "metric") r
       = (Ok descriptor, r')
       /\ schema.Get_string Schema d' "metric"
          = Descriptor_PublicID (LabelDescriptor descriptor).
Proof.
  intros B U.
  apply build_Some_inv in B as (common & w1 & scoped & w2 & descriptor & r3 & _ & _ & L & -> & _).
  rewrite update_cases in U. cbn [Common Config] in U.
  destruct (updateAlertV2CommonState d0 _) as [d1 [e|]]; [discriminate|].
  destruct (updateScopedSegmentedConfigState d1 _) as [d2 [e|]]; [discriminate|].
  injection U as <-.
  destruct (written_reads d2 (configOf d scoped descriptor))
    as (R1 & R2 & R3 & R4 & R5 & R6).
  repeat split; try assumption.
  - intros P. rewrite written_warning_threshold. cbn [configOf WarningThreshold].
    now rewrite P.
  - exists descriptor, (remote w2), r3. split; [exact L|exact R5].
Qed.

(** *** The handlers *)

(** C8: when [GetAlertV2MetricById] fails, with whatever error, the Read
    handler sets the ID to the empty string and returns nil diagnostics,
    after that one call. *)
Theorem read_drops_the_resource_on_any_error (d : ResourceData) (i : SysdigClients)
    (client : SysdigMonitorClient) (id : Z) (w : World) (e : error) (r' : Remote) :
  sysdigMonitorClient i = Ok client ->
  strconv.Atoi Quote (schema.Id d) = (id, None) ->
  GetAlertV2MetricById_in client id (remote w) = (Err e, r') ->
  resourceSysdigMonitorAlertV2MetricRead d i w
  = ((Returned [], schema.SetId d EmptyString),
     called w (CallGetAlertV2MetricById id) r')
  /\ schema.Id (schema.SetId d EmptyString) = EmptyString.
Proof.
  intros C A G. split; [|reflexivity].
  unfold resourceSysdigMonitorAlertV2MetricRead. rewrite C, A.
  unfold bind, GetAlertV2MetricById, invoke. now rewrite G.
Qed.


(** C3, as the code has it: the Create, Update and Delete handlers turn an
    error of their client method, and the Create and Update handlers an
    error of [buildAlertV2MetricStruct], into the diagnostic
    [diag.FromErr] makes of it (severity error, the error's text as
    summary) and return it after that one call, leaving the resource data
    alone; the Read handler answers an error of [GetAlertV2MetricById] by
    clearing the ID and returning nil diagnostics. *)
Theorem client_errors_in_the_handlers (d : ResourceData) (i : SysdigClients)
    (client : SysdigMonitorClient) (w : World) :
  sysdigMonitorClient i = Ok client ->
  (forall (a : AlertV2Metric) (w1 : World) (e : error) (r' : Remote),
      buildAlertV2MetricStruct d client w = ((Some a, None), w1) ->
      CreateAlertV2Metric_in client a (remote w1) = (Err e, r') ->
      resourceSysdigMonitorAlertV2MetricCreate d i w
      = ((Returned (diag.FromErr (Some e)), d), called w1 (CallCreateAlertV2Metric a) r'))
  /\ (forall (a : AlertV2Metric) (w1 : World) (e : error) (r' : Remote),
      buildAlertV2MetricStruct d client w = ((Some a, None), w1) ->
      let a' := set_ID a (fst (strconv.Atoi Quote (schema.Id d))) in
      UpdateAlertV2Metric_in client a' (remote w1) = (Err e, r') ->
      resourceSysdigMonitorAlertV2MetricUpdate d i w
      = ((Returned (diag.FromErr (Some e)), d), called w1 (CallUpdateAlertV2Metric a') r'))
  /\ (forall (id : Z) (e : error) (r' : Remote),
      strconv.Atoi Quote (schema.Id d) = (id, None) ->
      DeleteAlertV2Metric_in client id (remote w) = (Some e, r') ->
      resourceSysdigMonitorAlertV2MetricDelete d i w
      = ((Returned (diag.FromErr (Some e)), d), called w (CallDeleteAlertV2Metric id) r'))
  /\ (forall (s : option AlertV2Metric) (e : error) (w1 : World),
      buildAlertV2MetricStruct d client w = ((s, Some e), w1) ->
      resourceSysdigMonitorAlertV2MetricCreate d i w
      = ((Returned (diag.FromErr (Some e)), d), w1)
      /\ resourceSysdigMonitorAlertV2MetricUpdate d i w
         = ((Returned (diag.FromErr (Some e)), d), w1))
  /\ (forall e : error,
      diag.FromErr (Some e)
      = [{| diag.Severity_of := diag.SeverityError; diag.Summary := Error e;
            diag.Detail := EmptyString |}])
  /\ (forall (id : Z) (e : error) (r' : Remote),
      strconv.Atoi Quote (schema.Id d) = (id, None) ->
      GetAlertV2MetricById_in client id (remote w) = (Err e, r') ->
      resourceSysdigMonitorAlertV2MetricRead d i w
      = ((Returned [], schema.SetId d EmptyString),
         called w (CallGetAlertV2MetricById id) r')).
Proof.
  intros C. split; [|split; [|split; [|split; [|split]]]].
  - intros a w1 e r' B K.
    unfold resourceSysdigMonitorAlertV2MetricCreate. rewrite C.
    unfold bind. rewrite B. unfold CreateAlertV2Metric, invoke. now rewrite K.
  - intros a w1 e r' B a' K.
    unfold resourceSysdigMonitorAlertV2MetricUpdate. rewrite C.
    unfold bind. rewrite B. unfold UpdateAlertV2Metric, invoke. fold a'. now rewrite K.
  - intros id e r' A K.
    unfold resourceSysdigMonitorAlertV2MetricDelete. rewrite C, A.
    unfold bind, DeleteAlertV2Metric, invoke. now rewrite K.
  - intros s e w1 B. split.
    + unfold resourceSysdigMonitorAlertV2MetricCreate. rewrite C.
      unfold bind. rewrite B. now destruct s.
    + unfold resourceSysdigMonitorAlertV2MetricUpdate. rewrite C.
      unfold bind. rewrite B. now destruct s.
  - reflexivity.
  - intros id e r' A K.
    unfold resourceSysdigMonitorAlertV2MetricRead. rewrite C, A.
    unfold bind, GetAlertV2MetricById, invoke. now rewrite K.
Qed.

End Properties.

(** *** The theorems at the example instance *)

Lemma warning_operator_is_the_operator_witness :
  let d := exampleData "7" "cpu.used.percent" (Some 80%float) in
  let a := exampleStruct "cpu.used.percent" (Some 80%float) in
  let config := exampleConfig "cpu.used.percent" (Some 80%float) in
  Config a = Some config
  /\ WarningThreshold config = Some 80%float
  /\ WarningConditionOperator config = ConditionOperator config
  /\ ConditionOperator config
     = schema.Get_string resourceSysdigMonitorAlertV2Metric_Schema d "op".
Proof.
  intros d a config.
  destruct (@warning_operator_is_the_operator exampleMonitor exampleHelpers d
              (answeringClient id exampleAlert) exampleWorld
              (called exampleWorld (CallGetLabelDescriptor "cpu.used.percent") 6) a)
    as (c & E & W).
  - vm_compute. reflexivity.
  - injection E as <-. split; [reflexivity|]. split; [reflexivity|].
    apply W. discriminate.
Defined.

Lemma omitted_warning_threshold_stays_out_witness :
  let d := exampleData "7" "cpu.used.percent" None in
  let a := exampleStruct "cpu.used.percent" None in
  let config := exampleConfig "cpu.used.percent" None in
  Config a = Some config
  /\ WarningThreshold config = None
  /\ WarningConditionOperator config = EmptyString
  /\ schema.floats (fst (@updateAlertV2MetricState exampleMonitor exampleHelpers d a))
       !! "warning_threshold"
     = schema.floats (@afterHelpers exampleMonitor exampleHelpers d a)
         !! "warning_threshold".
Proof.
  intros d a config.
  destruct (@omitted_warning_threshold_stays_out exampleMonitor exampleHelpers d d
              (answeringClient id exampleAlert) exampleWorld
              (called exampleWorld (CallGetLabelDescriptor "cpu.used.percent") 6) a)
    as (c & E & N & O & U).
  - vm_compute. reflexivity.
  - vm_compute. reflexivity.
  - injection E as <-. split; [reflexivity|]. split; [exact N|]. split; [exact O|exact U].
Defined.

Lemma failed_lookup_is_wrapped_witness :
  let d := exampleData "7" "cpu.used.percent" None in
  exists err : error,
    @buildAlertV2MetricStruct exampleMonitor exampleHelpers d
      (failingClient unavailable) exampleWorld
    = ((None, Some err),
       called exampleWorld
         (CallGetLabelDescriptor
            (schema.Get_string resourceSysdigMonitorAlertV2Metric_Schema d "metric")) 6)
    /\ Unwrap err = Some unavailable
    /\ Error err
       = "error getting descriptor for label "
         +:+ schema.Get_string resourceSysdigMonitorAlertV2Metric_Schema d "metric"
         +:+ ": " +:+ Error unavailable.
Proof.
  apply (@failed_lookup_is_wrapped exampleMonitor exampleHelpers
           (exampleData "7" "cpu.used.percent" None) (failingClient unavailable)
           exampleWorld exampleWorld exampleWorld
           (@Build_AlertV2Common exampleMonitor 0 EmptyString "cpu high")
           "host.hostName" unavailable 6).
  - vm_compute. reflexivity.
  - vm_compute. reflexivity.
  - vm_compute. reflexivity.
Defined.

(** C2 fails as stated: a descriptor whose public ID is not the name it was
    looked up by puts another metric name into the state. *)
Lemma metric_is_not_reproduced :
  let d := exampleData "7" "cpu.used.percent" None in
  let client := answeringClient (fun _ => "sysdig_container_cpu_used_percent") exampleAlert in
  let a := exampleStruct "sysdig_container_cpu_used_percent" None in
  let d' := fst (@updateAlertV2MetricState exampleMonitor exampleHelpers d a) in
  @buildAlertV2MetricStruct exampleMonitor exampleHelpers d client exampleWorld
  = ((Some a, None), called exampleWorld (CallGetLabelDescriptor "cpu.used.percent") 6)
  /\ snd (@updateAlertV2MetricState exampleMonitor exampleHelpers d a) = Returned None
  /\ schema.Get_string resourceSysdigMonitorAlertV2Metric_Schema d "metric"
     = "cpu.used.percent"
  /\ schema.Get_string resourceSysdigMonitorAlertV2Metric_Schema d' "metric"
     = "sysdig_container_cpu_used_percent"
  /\ schema.Get_string resourceSysdigMonitorAlertV2Metric_Schema d' "metric"
     <> schema.Get_string resourceSysdigMonitorAlertV2Metric_Schema d "metric".
Proof.
  split; [vm_compute; reflexivity|]. split; [vm_compute; reflexivity|].
  split; [vm_compute; reflexivity|]. split; [vm_compute; reflexivity|].
  vm_compute. discriminate.
Defined.

Lemma roundtrip_up_to_the_descriptor_witness :
  let d := exampleData "7" "cpu.used.percent" (Some 80%float) in
  let a := exampleStruct "sysdig_container_cpu_used_percent" (Some 80%float) in
  let d' := fst (@updateAlertV2MetricState exampleMonitor exampleHelpers d a) in
  schema.Get_string resourceSysdigMonitorAlertV2Metric_Schema d' "op"
  = schema.Get_string resourceSysdigMonitorAlertV2Metric_Schema d "op"
  /\ schema.Get_float d' "threshold" = schema.Get_float d "threshold"
  /\ schema.floats d' !! "warning_threshold" = Some (schema.Get_float d "warning_threshold").
Proof.
  intros d a d'.
  assert (B : @buildAlertV2MetricStruct exampleMonitor exampleHelpers d
                (answeringClient (fun _ => "sysdig_container_cpu_used_percent") exampleAlert)
                exampleWorld
              = ((Some a, None),
                 called exampleWorld (CallGetLabelDescriptor "cpu.used.percent") 6))
    by (vm_compute; reflexivity).
  assert (U : @updateAlertV2MetricState exampleMonitor exampleHelpers d a
              = (d', Returned None))
    by (vm_compute; reflexivity).
  assert (P : snd (schema.GetOk_float d "warning_threshold") = true)
    by (vm_compute; reflexivity).
  destruct (@roundtrip_up_to_the_descriptor exampleMonitor exampleHelpers d d d' _ _ _ a B U)
    as (R1 & R2 & R3 & _).
  split; [exact R1|]. split; [exact R2|]. exact (R3 P).
Defined.

(** C3 fails as stated: the Read handler answers a failed
    [GetAlertV2MetricById] with nil diagnostics. *)
Lemma read_hides_the_client_error :
  let d := exampleData "7" "cpu.used.percent" None in
  let i := @Build_SysdigClients exampleMonitor (Ok (failingClient unavailable)) in
  GetAlertV2MetricById (failingClient unavailable) 7 exampleWorld
  = (Err unavailable, called exampleWorld (CallGetAlertV2MetricById 7) 6)
  /\ fst (@resourceSysdigMonitorAlertV2MetricRead exampleMonitor exampleHelpers d i
            exampleWorld)
     = (Returned [], schema.SetId d EmptyString)
  /\ diag.FromErr (Some unavailable) <> [].
Proof.
  split; [vm_compute; reflexivity|]. split; [vm_compute; reflexivity|]. discriminate.
Defined.

Lemma client_errors_in_the_handlers_witness :
  let d := exampleData "7" "cpu.used.percent" None in
  let i := @Build_SysdigClients exampleMonitor (Ok (brokenClient unavailable)) in
  @resourceSysdigMonitorAlertV2MetricCreate exampleMonitor exampleHelpers d i exampleWorld
  = ((Returned (diag.FromErr (Some unavailable)), d),
     called (called exampleWorld (CallGetLabelDescriptor "cpu.used.percent") 6)
       (CallCreateAlertV2Metric (exampleStruct "cpu.used.percent" None)) 6)
  /\ @resourceSysdigMonitorAlertV2MetricDelete exampleMonitor d i exampleWorld
     = ((Returned (diag.FromErr (Some unavailable)), d),
        called exampleWorld (CallDeleteAlertV2Metric 7) 6).
Proof.
  intros d i.
  destruct (@client_errors_in_the_handlers exampleMonitor exampleHelpers d i
              (brokenClient unavailable) exampleWorld eq_refl)
    as (HC & _ & HD & _).
  split.
  - apply HC; vm_compute; reflexivity.
  - apply HD; vm_compute; reflexivity.
Defined.

Lemma read_drops_the_resource_on_any_error_witness :
  let d := exampleData "7" "cpu.used.percent" None in
  let i := @Build_SysdigClients exampleMonitor (Ok (failingClient unavailable)) in
  @resourceSysdigMonitorAlertV2MetricRead exampleMonitor exampleHelpers d i exampleWorld
  = ((Returned [], schema.SetId d EmptyString),
     called exampleWorld (CallGetAlertV2MetricById 7) 6)
  /\ schema.Id (schema.SetId d EmptyString) = EmptyString.
Proof.
  apply (@read_drops_the_resource_on_any_error exampleMonitor exampleHelpers
           (exampleData "7" "cpu.used.percent" None)
           (@Build_SysdigClients exampleMonitor (Ok (failingClient unavailable)))
           (failingClient unavailable) 7 exampleWorld unavailable 6).
  - reflexivity.
  - vm_compute. reflexivity.
  - vm_compute. reflexivity.
Defined.



End alert_properties.

(** * Further properties of the cloudauth client *)

Module cloudauth_coverage.
Import v2 cloudauth cloudauth_properties.

Section Coverage.
Context `{Collaborators}.

(** X1: when [Marshal] fails, Create and Update return a nil struct with
    [Marshal]'s error and hand no request to the requester. *)
Theorem marshal_failure_sends_nothing (client : Client) (accountID : string)
    (cloudAccount : CloudauthAccountSecure) (e : error) (n : Net) :
  Marshal cloudAccount = Err e ->
  CreateCloudauthAccountSecure client cloudAccount n = ((None, Some e), n)
  /\ UpdateCloudauthAccountSecure client accountID cloudAccount n = ((None, Some e), n).
Proof.
  intros E. unfold CreateCloudauthAccountSecure, UpdateCloudauthAccountSecure.
  rewrite E. split; reflexivity.
Qed.

(** X2: when the requester itself fails, every operation returns the
    requester's error as it is, with a nil struct, after that one request:
    neither [ErrorFromResponse] nor [Unmarshal] has a say. *)
Theorem transport_failure_is_returned (op : Operation) (client : Client)
    (accountID : string) (cloudAccount : CloudauthAccountSecure) (payload : Payload)
    (n : Net) (e : error) (s' : Server) :
  Marshal cloudAccount = Ok payload ->
  respond (endpoint op client accountID payload) (server n) = (Err e, s') ->
  run op client accountID cloudAccount n
  = ((None, Some e), after n (endpoint op client accountID payload) s').
Proof.
  intros HM R.
  destruct op; cbn [run endpoint] in *;
    unfold CreateCloudauthAccountSecure, GetCloudauthAccountSecure,
      UpdateCloudauthAccountSecure, DeleteCloudauthAccountSecure, bind,
      http.MethodPost, http.MethodGet, http.MethodPut, http.MethodDelete;
    rewrite ?HM, ?cloudauthAccountsURL_eq, ?cloudauthAccountURL_eq;
    rewrite (requester_Request_answer _ _ _ _ _ _ R); reflexivity.
Qed.

(** X3: the item URL is the collection URL followed by a slash and the
    account ID; so it is never the collection URL, not even for the empty
    ID, and two account IDs have the same item URL only if they are
    equal. *)
Theorem item_url_extends_collection_url (client : Client) (accountID other : string) :
  cloudauthAccountURL client accountID
  = cloudauthAccountsURL client +:+ "/" +:+ accountID
  /\ cloudauthAccountURL client accountID <> cloudauthAccountsURL client
  /\ (cloudauthAccountURL client accountID = cloudauthAccountURL client other ->
      accountID = other).
Proof.
  rewrite !cloudauthAccountURL_eq, cloudauthAccountsURL_eq.
  split; [|split].
  - generalize (url (config client)) as base. intros base.
    induction base as [|c base IH]; [reflexivity|].
    change (String c (base +:+ "/api/cloudauth/v1/accounts/" +:+ accountID)
            = String c ((base +:+ "/api/cloudauth/v1/accounts") +:+ "/" +:+ accountID)).
    now rewrite IH.
  - intros E. apply (inj (String.app _)) in E. discriminate E.
  - intros E. apply (inj (String.app _)) in E.
    now apply (inj (String.app "/api/cloudauth/v1/accounts/")) in E.
Qed.

End Coverage.

Lemma marshal_failure_sends_nothing_witness :
  let reject := @Build_Collaborators string string string Z
                  (fun _ => Err (errors.New "json: unsupported value"))
                  (fun b => (Some b, None))
                  (fun _ body => Some (errors.New body))
                  (fun _ _ _ s => (Ok (s, "ok"), s)) in
  let n := @Build_Net reject [] 200 in
  @CreateCloudauthAccountSecure reject exampleClient "acc-1" n
  = ((None, Some (errors.New "json: unsupported value")), n)
  /\ @UpdateCloudauthAccountSecure reject exampleClient "acc-1" "acc-1" n
     = ((None, Some (errors.New "json: unsupported value")), n).
Proof.
  apply (@marshal_failure_sends_nothing
           (@Build_Collaborators string string string Z
              (fun _ => Err (errors.New "json: unsupported value"))
              (fun b => (Some b, None))
              (fun _ body => Some (errors.New body))
              (fun _ _ _ s => (Ok (s, "ok"), s)))).
  reflexivity.
Defined.

Lemma transport_failure_is_returned_witness :
  let down := @Build_Collaborators string string string Z
                (fun a => Ok a)
                (fun b => (Some b, None))
                (fun _ body => Some (errors.New body))
                (fun _ _ _ s => (Err (errors.New "dial tcp: connection refused"), s)) in
  let n := @Build_Net down [] 0 in
  @run down OpDelete exampleClient "acc-1" "acc-1" n
  = ((None, Some (errors.New "dial tcp: connection refused")),
     @after down n (@endpoint down OpDelete exampleClient "acc-1" "acc-1") 0).
Proof.
  apply (@transport_failure_is_returned
           (@Build_Collaborators string string string Z
              (fun a => Ok a)
              (fun b => (Some b, None))
              (fun _ body => Some (errors.New body))
              (fun _ _ _ s => (Err (errors.New "dial tcp: connection refused"), s)))).
  - reflexivity.
  - reflexivity.
Defined.

End cloudauth_coverage.

(** * [strconv]: what [Itoa] prints, [Atoi] reads *)

Module strconv_coverage.

Lemma digits_of_uint_acc (d : Decimal.uint) (p : positive) :
  strconv.digits (DecimalString.NilEmpty.string_of_uint d) (Z.pos p)
  = Some (Z.pos (Pos.of_uint_acc d p)).
Proof.
  revert p. induction d as [|d IH|d IH|d IH|d IH|d IH|d IH|d IH|d IH|d IH|d IH];
    intros p; cbn [DecimalString.NilEmpty.string_of_uint strconv.digits Pos.of_uint_acc];
    [reflexivity|..];
    (change (strconv.digit _) with (Some 0%Z) ||
     change (strconv.digit _) with (Some 1%Z) ||
     change (strconv.digit _) with (Some 2%Z) ||
     change (strconv.digit _) with (Some 3%Z) ||
     change (strconv.digit _) with (Some 4%Z) ||
     change (strconv.digit _) with (Some 5%Z) ||
     change (strconv.digit _) with (Some 6%Z) ||
     change (strconv.digit _) with (Some 7%Z) ||
     change (strconv.digit _) with (Some 8%Z) ||
     change (strconv.digit _) with (Some 9%Z));
    cbv iota;
    match goal with
    | |- strconv.digits _ ?z = Some (Z.pos (Pos.of_uint_acc _ ?q)) =>
        replace z with (Z.pos q) by lia
    end;
    apply IH.
Qed.

Lemma digits_of_uint (d : Decimal.uint) :
  strconv.digits (DecimalString.NilEmpty.string_of_uint d) 0
  = Some (Z.of_N (Pos.of_uint d)).
Proof.
  induction d as [|d IH|d IH|d IH|d IH|d IH|d IH|d IH|d IH|d IH|d IH];
    cbn [DecimalString.NilEmpty.string_of_uint strconv.digits Pos.of_uint];
    [reflexivity|exact IH|..];
    (change (strconv.digit _) with (Some 1%Z) ||
     change (strconv.digit _) with (Some 2%Z) ||
     change (strconv.digit _) with (Some 3%Z) ||
     change (strconv.digit _) with (Some 4%Z) ||
     change (strconv.digit _) with (Some 5%Z) ||
     change (strconv.digit _) with (Some 6%Z) ||
     change (strconv.digit _) with (Some 7%Z) ||
     change (strconv.digit _) with (Some 8%Z) ||
     change (strconv.digit _) with (Some 9%Z));
    cbv iota; cbn [Z.of_N];
    apply (digits_of_uint_acc d).
Qed.

(** What [Itoa] prints for a positive number is read back as its
    magnitude, and it starts with a digit. *)
Lemma parse_to_uint (p : positive) :
  strconv.parse (DecimalString.NilZero.string_of_uint (Pos.to_uint p))
  = Some (false, Z.pos p)
  /\ strconv.parse (String "-" (DecimalString.NilZero.string_of_uint (Pos.to_uint p)))
     = Some (true, Z.pos p).
Proof.
  pose proof (DecimalPos.Unsigned.of_to p) as V.
  pose proof (digits_of_uint (Pos.to_uint p)) as D. rewrite V in D. cbn [Z.of_N] in D.
  pose proof (DecimalPos.Unsigned.to_uint_nonnil p) as N.
  unfold DecimalString.NilZero.string_of_uint.
  destruct (Pos.to_uint p) as [|d|d|d|d|d|d|d|d|d|d]; [now destruct N|..];
    unfold strconv.parse;
    cbn [DecimalString.NilEmpty.string_of_uint] in *;
    rewrite D; split; reflexivity.
Qed.

(** The round trip: every [int] that [Itoa] prints is read back by [Atoi],
    without an error. *)
Lemma Atoi_Itoa (Quote : string -> string) (i : Z) :
  (strconv.minInt <= i <= strconv.maxInt)%Z ->
  strconv.Atoi Quote (strconv.Itoa i) = (i, None).
Proof.
  intros R. unfold strconv.Itoa.
  destruct i as [|p|p]; [reflexivity|..];
    cbn [Z.to_int DecimalString.NilZero.string_of_int];
    destruct (parse_to_uint p) as [P N].
  - rewrite (strconv_properties.Atoi_numeral Quote _ _ _ P). cbv zeta iota.
    destruct (Z.ltb_spec strconv.maxInt (Z.pos p)); [lia|].
    destruct (Z.ltb_spec (Z.pos p) strconv.minInt); [|reflexivity].
    unfold strconv.minInt in *. lia.
  - rewrite (strconv_properties.Atoi_numeral Quote _ _ _ N). cbv zeta iota.
    change (- Z.pos p)%Z with (Z.neg p).
    destruct (Z.ltb_spec strconv.maxInt (Z.neg p)); [unfold strconv.maxInt in *; lia|].
    destruct (Z.ltb_spec (Z.neg p) strconv.minInt); [lia|reflexivity].
Qed.

End strconv_coverage.

(** * Further properties of the metric alert resource *)

Module alert_coverage.
Import sysdig alert alert_properties strconv_coverage.

Section Coverage.
Context `{Monitor} `{!Helpers}.

Abbreviation Schema := resourceSysdigMonitorAlertV2Metric_Schema (only parsing).

(** After a successful [updateAlertV2MetricState] the alert has a
    configuration and the six fields the function always writes read as
    that configuration has them. *)
Lemma update_reads (d0 d' : ResourceData) (a : AlertV2Metric) :
  updateAlertV2MetricState d0 a = (d', Returned None) ->
  exists config : AlertV2ConfigMetric,
    Config a = Some config
    /\ schema.Get_string Schema d' "op" = ConditionOperator config
    /\ schema.Get_float d' "threshold" = Threshold config
    /\ schema.Get_string Schema d' "time_aggregation" = TimeAggregation config
    /\ schema.Get_string Schema d' "group_aggregation" = GroupAggregation config
    /\ schema.Get_string Schema d' "metric" = Metric_PublicID (Metric config)
    /\ schema.Get_string Schema d' "no_data_behaviour" = NoDataBehaviour config.
Proof.
  intros U. rewrite update_cases in U.
  destruct (updateAlertV2CommonState d0 _) as [d1 [e|]]; [discriminate|].
  destruct (Config a) as [config|]; [|discriminate].
  destruct (updateScopedSegmentedConfigState d1 _) as [d2 [e|]]; [discriminate|].
  injection U as <-. exists config. split; [reflexivity|]. apply written_reads.
Qed.

(** What a handler makes of [updateAlertV2MetricState]: it panics with it,
    and otherwise returns the diagnostics of its error. *)
Lemma handler_reports (d : ResourceData) (a : AlertV2Metric) :
  (snd (updateAlertV2CommonState d (Common a)) = None -> Config a = None ->
   reported (snd (updateAlertV2MetricState d a)) = Panicked)
  /\ (snd (updateAlertV2MetricState d a) = Returned None ->
      reported (snd (updateAlertV2MetricState d a)) = Returned []).
Proof.
  split.
  - intros E N. now rewrite (proj2 (update_panics_iff d a) (conj E N)).
  - now intros ->.
Qed.

(** The Update handler after a successful build: it calls
    [UpdateAlertV2Metric] with the struct under the ID that [Atoi] gave,
    with or without an error. *)
Lemma update_after_build (d : ResourceData) (i : SysdigClients)
    (client : SysdigMonitorClient) (w w1 : World) (a : AlertV2Metric)
    (n : Z) (err : option error) :
  sysdigMonitorClient i = Ok client ->
  buildAlertV2MetricStruct d client w = ((Some a, None), w1) ->
  strconv.Atoi Quote (schema.Id d) = (n, err) ->
  resourceSysdigMonitorAlertV2MetricUpdate d i w
  = match UpdateAlertV2Metric_in client (set_ID a n) (remote w1) with
    | (Err e, r2) =>
        ((Returned (diag.FromErr (Some e)), d),
         called w1 (CallUpdateAlertV2Metric (set_ID a n)) r2)
    | (Ok aUpdated, r2) =>
        ((reported (snd (updateAlertV2MetricState d aUpdated)),
          fst (updateAlertV2MetricState d aUpdated)),
         called w1 (CallUpdateAlertV2Metric (set_ID a n)) r2)
    end.
Proof.
  intros C B A.
  unfold resourceSysdigMonitorAlertV2MetricUpdate. rewrite C.
  unfold bind. rewrite B, A. cbn [fst].
  unfold UpdateAlertV2Metric, invoke.
  destruct (UpdateAlertV2Metric_in client (set_ID a n) (remote w1)) as [[aUpdated|e] r2];
    [|reflexivity].
  destruct (updateAlertV2MetricState d aUpdated) as [d' [[e|]|]]; reflexivity.
Qed.

(** *** [buildAlertV2MetricStruct] *)

(** X4: a helper function's error ends [buildAlertV2MetricStruct] at once:
    the error comes back as it is, with a nil struct, and the world is the
    one the failed helper left, so no descriptor is looked up. *)
Theorem build_fails_fast (d : ResourceData) (client : SysdigMonitorClient) (w : World) :
  (forall (e : error) (w1 : World),
      buildAlertV2CommonStruct d client w = (Err e, w1) ->
      buildAlertV2MetricStruct d client w = ((None, Some e), w1))
  /\ (forall (common : AlertV2Common) (w1 w2 : World)
             (scoped : ScopedSegmentedConfig) (e : error),
      buildAlertV2CommonStruct d client w = (Ok common, w1) ->
      buildScopedSegmentedConfigStruct d client ScopedSegmentedConfig_zero w1
      = ((scoped, Some e), w2) ->
      buildAlertV2MetricStruct d client w = ((None, Some e), w2)).
Proof.
  split.
  - intros e w1 B1. unfold buildAlertV2MetricStruct, bind. now rewrite B1.
  - intros common w1 w2 scoped e B1 B2.
    unfold buildAlertV2MetricStruct, bind. rewrite B1.
    cbn [AlertV2ConfigMetric_zero Scoped]. now rewrite B2.
Qed.

(** X5: whatever [buildAlertV2MetricStruct] returns, exactly one of the
    struct and the error is nil. *)
Theorem build_returns_a_struct_or_an_error (d : ResourceData)
    (client : SysdigMonitorClient) (w w' : World)
    (s : option AlertV2Metric) (err : option error) :
  buildAlertV2MetricStruct d client w = ((s, err), w') ->
  (s <> None /\ err = None) \/ (s = None /\ err <> None).
Proof.
  intros B. destruct s as [a|].
  - left. split; [discriminate|].
    now apply build_Some_inv in B as (_ & _ & _ & _ & _ & _ & _ & _ & _ & _ & E & _).
  - right. split; [reflexivity|]. exact (build_None_inv _ _ _ _ _ B).
Qed.

(** X6: a struct that [buildAlertV2MetricStruct] returns is typed
    [AlertV2AlertType_Manual] whatever type the common helper gave it, has
    a configuration, which carries the configured operator, threshold,
    aggregations and no-data behaviour (the schema's default [DO_NOTHING]
    when none is set), and has both metric IDs from the one descriptor that
    the lookup of the configured metric returned. *)
Theorem built_struct_fields (d : ResourceData) (client : SysdigMonitorClient)
    (w w' : World) (a : AlertV2Metric) :
  buildAlertV2MetricStruct d client w = ((Some a, None), w') ->
  Type_ (Common a) = AlertV2AlertType_Manual
  /\ exists config : AlertV2ConfigMetric,
       Config a = Some config
       /\ ConditionOperator config = schema.Get_string Schema d "op"
       /\ Threshold config = schema.Get_float d "threshold"
       /\ TimeAggregation config = schema.Get_string Schema d "time_aggregation"
       /\ GroupAggregation config = schema.Get_string Schema d "group_aggregation"
       /\ NoDataBehaviour config = schema.Get_string Schema d "no_data_behaviour"
       /\ (schema.strings d !! "no_data_behaviour" = None ->
           NoDataBehaviour config = "DO_NOTHING")
       /\ exists (descriptor : LabelDescriptorV3Wrapper) (r r' : Remote),
            GetLabelDescriptor_in client (schema.Get_string Schema d "metric") r
            = (Ok descriptor, r')
            /\ Metric config
               = {| Metric_ID := Descriptor_ID (LabelDescriptor descriptor);
                    Metric_PublicID := Descriptor_PublicID (LabelDescriptor descriptor) |}.
Proof.
  intros B.
  apply build_Some_inv in B as (common & w1 & scoped & w2 & descriptor & r3 & _ & _ & L & -> & _).
  split; [reflexivity|].
  eexists. split; [reflexivity|].
  cbn [configOf ConditionOperator Threshold TimeAggregation GroupAggregation
         NoDataBehaviour Metric].
  repeat (split; [reflexivity|]). split.
  - intros N. unfold schema.Get_string. now rewrite N.
  - exists descriptor, (remote w2), r3. now split.
Qed.

(** X7: a [warning_threshold] that is set to zero is treated like one that
    is not set: the struct's configuration has no warning threshold and no
    warning operator; any other value is carried over together with the
    operator. *)
Theorem zero_warning_threshold_is_dropped (d : ResourceData)
    (client : SysdigMonitorClient) (w w' : World) (a : AlertV2Metric) (v : float) :
  schema.floats d !! "warning_threshold" = Some v ->
  buildAlertV2MetricStruct d client w = ((Some a, None), w') ->
  exists config : AlertV2ConfigMetric,
    Config a = Some config
    /\ WarningThreshold config = (if PrimFloat.eqb v 0 then None else Some v)
    /\ WarningConditionOperator config
       = (if PrimFloat.eqb v 0 then EmptyString else schema.Get_string Schema d "op").
Proof.
  intros S B.
  apply build_Some_inv in B as (common & w1 & scoped & w2 & descriptor & r3 & _ & _ & _ & -> & _).
  eexists. split; [reflexivity|].
  cbn [configOf WarningThreshold WarningConditionOperator].
  unfold schema.GetOk_float, schema.Get_float. rewrite S. cbn [snd].
  now destruct (PrimFloat.eqb v 0).
Qed.

(** *** [updateAlertV2MetricState] *)

(** X8: an [updateAlertV2MetricState] that returns without an error was
    given an alert with a configuration; afterwards the fields [op],
    [threshold], [time_aggregation], [group_aggregation] and
    [no_data_behaviour] read as the configuration has them and [metric]
    reads as its public metric ID, whatever the data held before;
    [warning_threshold] is the configuration's when it has one, and is
    otherwise left as the helper functions left it: an old value is not
    cleared. *)
Theorem update_writes_the_alert (d0 d' : ResourceData) (a : AlertV2Metric) :
  updateAlertV2MetricState d0 a = (d', Returned None) ->
  exists config : AlertV2ConfigMetric,
    Config a = Some config
    /\ schema.Get_string Schema d' "op" = ConditionOperator config
    /\ schema.Get_float d' "threshold" = Threshold config
    /\ schema.Get_string Schema d' "time_aggregation" = TimeAggregation config
    /\ schema.Get_string Schema d' "group_aggregation" = GroupAggregation config
    /\ schema.Get_string Schema d' "metric" = Metric_PublicID (Metric config)
    /\ schema.Get_string Schema d' "no_data_behaviour" = NoDataBehaviour config
    /\ schema.floats d' !! "warning_threshold"
       = match WarningThreshold config with
         | Some wt => Some wt
         | None => schema.floats (afterHelpers d0 a) !! "warning_threshold"
         end.
Proof.
  intros U.
  destruct (update_reads _ _ _ U) as (config & E & R1 & R2 & R3 & R4 & R5 & R6).
  exists config. repeat (split; [assumption|]).
  rewrite update_cases in U. unfold afterHelpers.
  destruct (updateAlertV2CommonState d0 _) as [d1 [e|]]; [discriminate|].
  rewrite E in *.
  destruct (updateScopedSegmentedConfigState d1 _) as [d2 [e|]]; [discriminate|].
  injection U as <-. cbn [fst]. apply written_warning_threshold.
Qed.

(** X9: [updateAlertV2MetricState] itself writes the seven attributes of
    the resource and nothing else: the ID, the attributes of other types
    and every other string or float attribute are as the helper functions
    left them; and when it does not return without an error, be it that it
    returns one or that it panics, it has written nothing of its own. *)
Theorem update_writes_nothing_else (d0 : ResourceData) (a : AlertV2Metric) :
  let d' := fst (updateAlertV2MetricState d0 a) in
  schema.Id d' = schema.Id (afterHelpers d0 a)
  /\ schema.other d' = schema.other (afterHelpers d0 a)
  /\ (forall key : string,
         key <> "op" -> key <> "time_aggregation" -> key <> "group_aggregation" ->
         key <> "metric" -> key <> "no_data_behaviour" ->
         schema.strings d' !! key = schema.strings (afterHelpers d0 a) !! key)
  /\ (forall key : string,
         key <> "threshold" -> key <> "warning_threshold" ->
         schema.floats d' !! key = schema.floats (afterHelpers d0 a) !! key)
  /\ (snd (updateAlertV2MetricState d0 a) <> Returned None -> d' = afterHelpers d0 a).
Proof.
  cbv zeta. rewrite update_cases. unfold afterHelpers.
  destruct (updateAlertV2CommonState d0 _) as [d1 [e|]].
  { cbn [fst snd]. repeat split; reflexivity. }
  destruct (Config a) as [config|].
  2: { cbn [fst snd]. repeat split; reflexivity. }
  destruct (updateScopedSegmentedConfigState d1 _) as [d2 [e|]].
  { cbn [fst snd]. repeat split; reflexivity. }
  cbn [fst snd]. unfold written. cbn [schema.Id schema.other schema.strings schema.floats].
  split; [reflexivity|]. split; [reflexivity|]. split; [|split].
  - intros key N1 N2 N3 N4 N5. now rewrite !lookup_insert_ne by congruence.
  - intros key N1 N2. destruct (WarningThreshold config);
      now rewrite !lookup_insert_ne by congruence.
  - intros N. now destruct N.
Qed.

(** *** The handlers *)

(** X10: when the provider cannot hand out its monitor client, each of the
    four handlers returns that error as a diagnostic, calls nothing and
    leaves the resource data as it was. *)
Theorem without_a_client_nothing_happens (d : ResourceData) (i : SysdigClients)
    (e : error) (w : World) :
  sysdigMonitorClient i = Err e ->
  resourceSysdigMonitorAlertV2MetricCreate d i w
  = ((Returned (diag.FromErr (Some e)), d), w)
  /\ resourceSysdigMonitorAlertV2MetricRead d i w
     = ((Returned (diag.FromErr (Some e)), d), w)
  /\ resourceSysdigMonitorAlertV2MetricUpdate d i w
     = ((Returned (diag.FromErr (Some e)), d), w)
  /\ resourceSysdigMonitorAlertV2MetricDelete d i w
     = ((Returned (diag.FromErr (Some e)), d), w).
Proof.
  intros C.
  unfold resourceSysdigMonitorAlertV2MetricCreate, resourceSysdigMonitorAlertV2MetricRead,
    resourceSysdigMonitorAlertV2MetricUpdate, resourceSysdigMonitorAlertV2MetricDelete.
  rewrite C. repeat split.
Qed.

(** X11: when the client has created the alert, the Create handler sets
    the resource ID to the decimal numeral of the ID the server gave and
    then maps the server's answer, not the struct it sent, into the state.
    It ends as that mapping ends: it panics when the answer has no
    configuration (a nil [Config]) and the common helper reported no
    error, it returns the mapping's error as a diagnostic, and after a
    clean mapping it returns nil diagnostics, the answer has a
    configuration, and the fields read as that configuration has them. *)
Theorem create_stores_the_answer (d : ResourceData) (i : SysdigClients)
    (client : SysdigMonitorClient) (w w1 : World) (a aCreated : AlertV2Metric)
    (r' : Remote) :
  sysdigMonitorClient i = Ok client ->
  buildAlertV2MetricStruct d client w = ((Some a, None), w1) ->
  CreateAlertV2Metric_in client a (remote w1) = (Ok aCreated, r') ->
  let d1 := schema.SetId d (strconv.Itoa (ID (Common aCreated))) in
  let stored := updateAlertV2MetricState d1 aCreated in
  let created := resourceSysdigMonitorAlertV2MetricCreate d i w in
  created
  = ((reported (snd stored), fst stored), called w1 (CallCreateAlertV2Metric a) r')
  /\ (snd (updateAlertV2CommonState d1 (Common aCreated)) = None ->
      Config aCreated = None ->
      fst (fst created) = Panicked)
  /\ (forall e : error,
      snd stored = Returned (Some e) ->
      fst (fst created) = Returned (diag.FromErr (Some e)))
  /\ (snd stored = Returned None ->
      fst (fst created) = Returned []
      /\ exists config : AlertV2ConfigMetric,
           Config aCreated = Some config
           /\ schema.Get_string Schema (fst stored) "op" = ConditionOperator config
           /\ schema.Get_float (fst stored) "threshold" = Threshold config
           /\ schema.Get_string Schema (fst stored) "metric"
              = Metric_PublicID (Metric config)).
Proof.
  intros C B K d1 stored created.
  assert (E : created
              = ((reported (snd stored), fst stored),
                 called w1 (CallCreateAlertV2Metric a) r')).
  { unfold created, resourceSysdigMonitorAlertV2MetricCreate. rewrite C.
    unfold bind. rewrite B. unfold CreateAlertV2Metric, invoke. rewrite K.
    fold d1. fold stored. now destruct stored as [d' [[e|]|]]. }
  split; [exact E|]. rewrite E. cbn [fst].
  split; [|split].
  - intros N1 N2. now apply handler_reports.
  - now intros e ->.
  - intros S. split; [now rewrite S|].
    destruct (update_reads d1 (fst stored) aCreated)
      as (config & G & R1 & R2 & _ & _ & R5 & _).
    { fold stored. destruct stored as [d' err]. cbn [fst snd] in *. now subst. }
    exists config. now repeat split.
Qed.

(** X12: with a stored ID that is a decimal numeral in range, a Read whose
    client call succeeds asks for that ID once and maps the alert it got
    into the state.  It ends as that mapping ends: it panics when the alert
    has no configuration (a nil [Config]) and the common helper reported
    no error, it returns the mapping's error as a diagnostic, and after a
    clean mapping it returns nil diagnostics, the alert has a
    configuration, and the fields read as that configuration has them. *)
Theorem read_refreshes_the_state (d : ResourceData) (i : SysdigClients)
    (client : SysdigMonitorClient) (id : Z) (w : World) (a : AlertV2Metric)
    (r' : Remote) :
  sysdigMonitorClient i = Ok client ->
  strconv.Atoi Quote (schema.Id d) = (id, None) ->
  GetAlertV2MetricById_in client id (remote w) = (Ok a, r') ->
  let stored := updateAlertV2MetricState d a in
  let read := resourceSysdigMonitorAlertV2MetricRead d i w in
  read = ((reported (snd stored), fst stored), called w (CallGetAlertV2MetricById id) r')
  /\ (snd (updateAlertV2CommonState d (Common a)) = None ->
      Config a = None ->
      fst (fst read) = Panicked)
  /\ (forall e : error,
      snd stored = Returned (Some e) ->
      fst (fst read) = Returned (diag.FromErr (Some e)))
  /\ (snd stored = Returned None ->
      fst (fst read) = Returned []
      /\ exists config : AlertV2ConfigMetric,
           Config a = Some config
           /\ schema.Get_string Schema (fst stored) "op" = ConditionOperator config
           /\ schema.Get_float (fst stored) "threshold" = Threshold config
           /\ schema.Get_string Schema (fst stored) "metric"
              = Metric_PublicID (Metric config)).
Proof.
  intros C A G stored read.
  assert (E : read
              = ((reported (snd stored), fst stored),
                 called w (CallGetAlertV2MetricById id) r')).
  { unfold read, resourceSysdigMonitorAlertV2MetricRead. rewrite C, A.
    unfold bind, GetAlertV2MetricById, invoke. rewrite G.
    fold stored. now destruct stored as [d' [[e|]|]]. }
  split; [exact E|]. rewrite E. cbn [fst].
  split; [|split].
  - intros N1 N2. now apply handler_reports.
  - now intros e ->.
  - intros S. split; [now rewrite S|].
    destruct (update_reads d (fst stored) a) as (config & K & R1 & R2 & _ & _ & R5 & _).
    { fold stored. destruct stored as [d' err]. cbn [fst snd] in *. now subst. }
    exists config. now repeat split.
Qed.

(** X13: with a stored ID that is a decimal numeral in range, a Delete
    whose client call succeeds has called [DeleteAlertV2Metric] once with
    that ID, returns nil diagnostics and leaves the resource data,
    the ID included, as it was. *)
Theorem delete_leaves_the_data (d : ResourceData) (i : SysdigClients)
    (client : SysdigMonitorClient) (id : Z) (w : World) (r' : Remote) :
  sysdigMonitorClient i = Ok client ->
  strconv.Atoi Quote (schema.Id d) = (id, None) ->
  DeleteAlertV2Metric_in client id (remote w) = (None, r') ->
  resourceSysdigMonitorAlertV2MetricDelete d i w
  = ((Returned [], d), called w (CallDeleteAlertV2Metric id) r').
Proof.
  intros C A K.
  unfold resourceSysdigMonitorAlertV2MetricDelete. rewrite C, A.
  unfold bind, DeleteAlertV2Metric, invoke. now rewrite K.
Qed.

(** X14: the struct the Update handler sends is the struct built from the
    configuration with its ID replaced by what [Atoi] makes of the stored
    ID, whatever ID the common helper gave it: its ID is that number, its
    type is [AlertV2AlertType_Manual], and its other fields and its
    configuration are those of the built struct.  When the client succeeds
    the handler maps the server's answer into the state and ends as that
    mapping ends: it panics when the answer has no configuration (a nil
    [Config]) and the common helper reported no error, it returns the
    mapping's error as a diagnostic, and nil diagnostics after a clean
    mapping. *)
Theorem update_sends_the_stored_id (d : ResourceData) (i : SysdigClients)
    (client : SysdigMonitorClient) (w w1 : World) (a : AlertV2Metric) :
  sysdigMonitorClient i = Ok client ->
  buildAlertV2MetricStruct d client w = ((Some a, None), w1) ->
  exists sent : AlertV2Metric,
    ID (Common sent) = fst (strconv.Atoi Quote (schema.Id d))
    /\ Type_ (Common sent) = AlertV2AlertType_Manual
    /\ Fields (Common sent) = Fields (Common a)
    /\ Config sent = Config a
    /\ forall (aUpdated : AlertV2Metric) (r' : Remote),
         UpdateAlertV2Metric_in client sent (remote w1) = (Ok aUpdated, r') ->
         let stored := updateAlertV2MetricState d aUpdated in
         let updated := resourceSysdigMonitorAlertV2MetricUpdate d i w in
         updated
         = ((reported (snd stored), fst stored),
            called w1 (CallUpdateAlertV2Metric sent) r')
         /\ (snd (updateAlertV2CommonState d (Common aUpdated)) = None ->
             Config aUpdated = None ->
             fst (fst updated) = Panicked)
         /\ (forall e : error,
             snd stored = Returned (Some e) ->
             fst (fst updated) = Returned (diag.FromErr (Some e)))
         /\ (snd stored = Returned None -> fst (fst updated) = Returned []).
Proof.
  intros C B.
  exists (set_ID a (fst (strconv.Atoi Quote (schema.Id d)))).
  split; [reflexivity|]. split.
  { apply build_Some_inv in B
      as (common & w0 & scoped & w2 & descriptor & r3 & _ & _ & _ & -> & _).
    reflexivity. }
  split; [reflexivity|]. split; [reflexivity|].
  intros aUpdated r' K stored updated.
  assert (E : updated
              = ((reported (snd stored), fst stored),
                 called w1 (CallUpdateAlertV2Metric
                              (set_ID a (fst (strconv.Atoi Quote (schema.Id d))))) r')).
  { unfold updated.
    rewrite (update_after_build d i client w w1 a
               (fst (strconv.Atoi Quote (schema.Id d)))
               (snd (strconv.Atoi Quote (schema.Id d))) C B)
      by now destruct (strconv.Atoi Quote (schema.Id d)).
    now rewrite K. }
  split; [exact E|]. rewrite E. cbn [fst].
  split; [|split].
  - intros N1 N2. now apply handler_reports.
  - now intros e ->.
  - now intros ->.
Qed.

(** X15: the ID that the Create handler stores is read back: for every
    alert ID within Go's [int], resource data whose ID is [Itoa] of it
    makes the Read handler ask for that alert, the Delete handler delete
    it, and the Update handler call [UpdateAlertV2Metric] with a struct
    whose ID is that number, whatever ID the common helper gave it, and
    whose type, other fields and configuration are those of the built
    struct. *)
Theorem stored_id_is_read_back (d : ResourceData) (i : SysdigClients)
    (client : SysdigMonitorClient) (w : World) (n : Z) :
  sysdigMonitorClient i = Ok client ->
  (strconv.minInt <= n <= strconv.maxInt)%Z ->
  let d' := schema.SetId d (strconv.Itoa n) in
  calls (snd (resourceSysdigMonitorAlertV2MetricRead d' i w))
  = calls w ++ [CallGetAlertV2MetricById n]
  /\ calls (snd (resourceSysdigMonitorAlertV2MetricDelete d' i w))
     = calls w ++ [CallDeleteAlertV2Metric n]
  /\ (forall (a : AlertV2Metric) (w1 : World),
         buildAlertV2MetricStruct d' client w = ((Some a, None), w1) ->
         exists sent : AlertV2Metric,
           ID (Common sent) = n
           /\ Type_ (Common sent) = Type_ (Common a)
           /\ Fields (Common sent) = Fields (Common a)
           /\ Config sent = Config a
           /\ calls (snd (resourceSysdigMonitorAlertV2MetricUpdate d' i w))
              = calls w1 ++ [CallUpdateAlertV2Metric sent]).
Proof.
  intros C R d'.
  assert (A : strconv.Atoi Quote (schema.Id d') = (n, None))
    by (apply Atoi_Itoa; exact R).
  split; [|split].
  - unfold resourceSysdigMonitorAlertV2MetricRead. rewrite C, A.
    unfold bind, GetAlertV2MetricById, invoke.
    destruct (GetAlertV2MetricById_in client n (remote w)) as [[a|e] r']; [|reflexivity].
    now destruct (updateAlertV2MetricState d' a) as [d2 [[e|]|]].
  - unfold resourceSysdigMonitorAlertV2MetricDelete. rewrite C, A.
    unfold bind, DeleteAlertV2Metric, invoke.
    now destruct (DeleteAlertV2Metric_in client n (remote w)) as [[e|] r'].
  - intros a w1 B. exists (set_ID a n).
    split; [reflexivity|]. split; [reflexivity|]. split; [reflexivity|].
    split; [reflexivity|].
    rewrite (update_after_build d' i client w w1 a n None C B A).
    now destruct (UpdateAlertV2Metric_in client (set_ID a n) (remote w1)) as [[a2|e] r'].
Qed.

(** X16: with a stored ID that is a decimal numeral outside Go's [int],
    the Read and Delete handlers return [Atoi]'s range error as a
    diagnostic without calling the client, while the Update handler, which
    drops the error, calls [UpdateAlertV2Metric] with a struct whose ID is
    the nearest [int], whatever ID the common helper gave it, and whose
    type, other fields and configuration are those of the built struct. *)
Theorem out_of_range_id (d : ResourceData) (i : SysdigClients)
    (client : SysdigMonitorClient) (w : World) (neg : bool) (n : Z) :
  sysdigMonitorClient i = Ok client ->
  strconv.parse (schema.Id d) = Some (neg, n) ->
  let v := (if neg then - n else n)%Z in
  (strconv.maxInt < v \/ v < strconv.minInt)%Z ->
  let nearest := if (strconv.maxInt <? v)%Z then strconv.maxInt else strconv.minInt in
  let refused :=
    diag.FromErr (Some (strconv.NumError Quote "Atoi" (schema.Id d) strconv.ErrRange)) in
  resourceSysdigMonitorAlertV2MetricRead d i w = ((Returned refused, d), w)
  /\ resourceSysdigMonitorAlertV2MetricDelete d i w = ((Returned refused, d), w)
  /\ (forall (a : AlertV2Metric) (w1 : World),
         buildAlertV2MetricStruct d client w = ((Some a, None), w1) ->
         exists sent : AlertV2Metric,
           ID (Common sent) = nearest
           /\ Type_ (Common sent) = Type_ (Common a)
           /\ Fields (Common sent) = Fields (Common a)
           /\ Config sent = Config a
           /\ calls (snd (resourceSysdigMonitorAlertV2MetricUpdate d i w))
              = calls w1 ++ [CallUpdateAlertV2Metric sent]).
Proof.
  intros C P v O nearest refused.
  assert (A : strconv.Atoi Quote (schema.Id d)
              = (nearest,
                 Some (strconv.NumError Quote "Atoi" (schema.Id d) strconv.ErrRange))).
  { rewrite (strconv_properties.Atoi_numeral Quote _ _ _ P). cbv zeta.
    subst nearest. change (if neg then (- n)%Z else n) with v.
    destruct (Z.ltb_spec strconv.maxInt v); [reflexivity|].
    destruct (Z.ltb_spec v strconv.minInt); [reflexivity|lia]. }
  split; [|split].
  - unfold resourceSysdigMonitorAlertV2MetricRead. now rewrite C, A.
  - unfold resourceSysdigMonitorAlertV2MetricDelete. now rewrite C, A.
  - intros a w1 B. exists (set_ID a nearest).
    split; [reflexivity|]. split; [reflexivity|]. split; [reflexivity|].
    split; [reflexivity|].
    rewrite (update_after_build d i client w w1 a nearest _ C B A).
    now destruct (UpdateAlertV2Metric_in client (set_ID a nearest) (remote w1))
      as [[a2|e] r'].
Qed.

End Coverage.

(** *** The theorems at the example instance *)

Lemma build_fails_fast_witness :
  let d := exampleData "7" "cpu.used.percent" None in
  let client := answeringClient id exampleAlert in
  @buildAlertV2MetricStruct exampleMonitor (refusingHelpers (Some unavailable) None)
    d client exampleWorld
  = ((None, Some unavailable), exampleWorld)
  /\ @buildAlertV2MetricStruct exampleMonitor (refusingHelpers None (Some invalid))
       d client exampleWorld
     = ((None, Some invalid), exampleWorld).
Proof.
  intros d client. split.
  - apply (proj1 (@build_fails_fast exampleMonitor (refusingHelpers (Some unavailable) None)
                    d client exampleWorld)).
    vm_compute. reflexivity.
  - apply (proj2 (@build_fails_fast exampleMonitor (refusingHelpers None (Some invalid))
                    d client exampleWorld)
             (@Build_AlertV2Common exampleMonitor 0 EmptyString "cpu high")
             exampleWorld exampleWorld "host.hostName").
    + vm_compute. reflexivity.
    + vm_compute. reflexivity.
Defined.

Lemma build_returns_a_struct_or_an_error_witness :
  let a := exampleStruct "cpu.used.percent" None in
  (Some a <> None /\ @None error = None) \/ (Some a = None /\ @None error <> None).
Proof.
  intros a.
  apply (@build_returns_a_struct_or_an_error exampleMonitor exampleHelpers
           (exampleData "7" "cpu.used.percent" None) (answeringClient id exampleAlert)
           exampleWorld
           (called exampleWorld (CallGetLabelDescriptor "cpu.used.percent") 6)).
  vm_compute. reflexivity.
Defined.

Lemma built_struct_fields_witness :
  let a := exampleStruct "cpu.used.percent" None in
  let config := exampleConfig "cpu.used.percent" None in
  @Type_ exampleMonitor (Common a) = "MANUAL"
  /\ Config a = Some config
  /\ ConditionOperator config = ">"
  /\ Threshold config = 90%float
  /\ NoDataBehaviour config = "DO_NOTHING".
Proof.
  intros a config.
  destruct (@built_struct_fields exampleMonitor exampleHelpers
              (exampleData "7" "cpu.used.percent" None) (answeringClient id exampleAlert)
              exampleWorld
              (called exampleWorld (CallGetLabelDescriptor "cpu.used.percent") 6) a)
    as (T & c & E & O & V & _ & _ & _ & N & _).
  - vm_compute. reflexivity.
  - injection E as <-. split; [exact T|]. split; [reflexivity|].
    split; [etransitivity; [exact O|vm_compute; reflexivity]|].
    split; [etransitivity; [exact V|vm_compute; reflexivity]|].
    apply N. vm_compute. reflexivity.
Defined.

Lemma zero_warning_threshold_is_dropped_witness :
  let a := exampleStruct "cpu.used.percent" None in
  let config := exampleConfig "cpu.used.percent" None in
  Config a = Some config
  /\ WarningThreshold config = (if PrimFloat.eqb 0 0 then None else Some 0%float)
  /\ WarningConditionOperator config
     = (if PrimFloat.eqb 0 0 then EmptyString
        else schema.Get_string resourceSysdigMonitorAlertV2Metric_Schema
               (exampleData "7" "cpu.used.percent" (Some 0%float)) "op").
Proof.
  intros a config.
  destruct (@zero_warning_threshold_is_dropped exampleMonitor exampleHelpers
              (exampleData "7" "cpu.used.percent" (Some 0%float))
              (answeringClient id exampleAlert) exampleWorld
              (called exampleWorld (CallGetLabelDescriptor "cpu.used.percent") 6) a
              0%float)
    as (c & E & W & O).
  - vm_compute. reflexivity.
  - vm_compute. reflexivity.
  - injection E as <-. split; [reflexivity|]. split; [exact W|exact O].
Defined.

Lemma update_writes_the_alert_witness :
  let d0 := exampleData "7" "cpu.used.percent" (Some 70%float) in
  let a := exampleStruct "sysdig_container_cpu_used_percent" None in
  let d' := fst (@updateAlertV2MetricState exampleMonitor exampleHelpers d0 a) in
  schema.Get_string resourceSysdigMonitorAlertV2Metric_Schema d' "metric"
  = "sysdig_container_cpu_used_percent"
  /\ schema.floats d' !! "warning_threshold" = Some 70%float.
Proof.
  intros d0 a d'.
  destruct (@update_writes_the_alert exampleMonitor exampleHelpers d0 d' a)
    as (c & E & _ & _ & _ & _ & M & _ & W).
  - vm_compute. reflexivity.
  - injection E as <-. split; [exact M|].
    etransitivity; [exact W|vm_compute; reflexivity].
Defined.

Lemma without_a_client_nothing_happens_witness :
  let d := exampleData "7" "cpu.used.percent" None in
  let i := @Build_SysdigClients exampleMonitor (Err unavailable) in
  @resourceSysdigMonitorAlertV2MetricCreate exampleMonitor exampleHelpers d i exampleWorld
  = ((Returned (diag.FromErr (Some unavailable)), d), exampleWorld)
  /\ @resourceSysdigMonitorAlertV2MetricRead exampleMonitor exampleHelpers d i exampleWorld
     = ((Returned (diag.FromErr (Some unavailable)), d), exampleWorld)
  /\ @resourceSysdigMonitorAlertV2MetricUpdate exampleMonitor exampleHelpers d i exampleWorld
     = ((Returned (diag.FromErr (Some unavailable)), d), exampleWorld)
  /\ @resourceSysdigMonitorAlertV2MetricDelete exampleMonitor d i exampleWorld
     = ((Returned (diag.FromErr (Some unavailable)), d), exampleWorld).
Proof.
  intros d i.
  apply (@without_a_client_nothing_happens exampleMonitor exampleHelpers d i unavailable
           exampleWorld).
  reflexivity.
Defined.

Lemma create_stores_the_answer_witness :
  let d := exampleData EmptyString "cpu.used.percent" None in
  let answering := @Build_SysdigClients exampleMonitor (Ok (answeringClient id exampleAlert)) in
  let replaying := @Build_SysdigClients exampleMonitor (Ok (replayingClient bareAlert)) in
  let created :=
    @resourceSysdigMonitorAlertV2MetricCreate exampleMonitor exampleHelpers d answering
      exampleWorld in
  let failed :=
    @resourceSysdigMonitorAlertV2MetricCreate exampleMonitor exampleHelpers d replaying
      exampleWorld in
  fst (fst created) = Returned []
  /\ schema.Id (snd (fst created)) = "7"
  /\ calls (snd created)
     = [CallGetLabelDescriptor "cpu.used.percent";
        CallCreateAlertV2Metric (exampleStruct "cpu.used.percent" None)]
  /\ fst (fst failed) = Panicked.
Proof.
  intros d answering replaying created failed.
  destruct (@create_stores_the_answer exampleMonitor exampleHelpers d answering
              (answeringClient id exampleAlert) exampleWorld
              (called exampleWorld (CallGetLabelDescriptor "cpu.used.percent") 6)
              (exampleStruct "cpu.used.percent" None)
              (@set_ID exampleMonitor (exampleStruct "cpu.used.percent" None) 7) 7)
    as (E & _ & _ & S).
  { reflexivity. }
  { vm_compute. reflexivity. }
  { vm_compute. reflexivity. }
  destruct (@create_stores_the_answer exampleMonitor exampleHelpers d replaying
              (replayingClient bareAlert) exampleWorld
              (called exampleWorld (CallGetLabelDescriptor "cpu.used.percent") 6)
              (exampleStruct "cpu.used.percent" None) bareAlert 6)
    as (_ & P & _).
  { reflexivity. }
  { vm_compute. reflexivity. }
  { vm_compute. reflexivity. }
  split; [apply S; vm_compute; reflexivity|].
  split; [unfold created; rewrite E; vm_compute; reflexivity|].
  split; [unfold created; rewrite E; vm_compute; reflexivity|].
  apply P; vm_compute; reflexivity.
Defined.

Lemma read_refreshes_the_state_witness :
  let d := exampleData "7" "cpu.used.percent" (Some 70%float) in
  let a := exampleStruct "sysdig_container_cpu_used_percent" None in
  let answering := @Build_SysdigClients exampleMonitor (Ok (answeringClient id a)) in
  let replaying := @Build_SysdigClients exampleMonitor (Ok (replayingClient bareAlert)) in
  let read :=
    @resourceSysdigMonitorAlertV2MetricRead exampleMonitor exampleHelpers d answering
      exampleWorld in
  let failed :=
    @resourceSysdigMonitorAlertV2MetricRead exampleMonitor exampleHelpers d replaying
      exampleWorld in
  fst (fst read) = Returned []
  /\ schema.Get_string resourceSysdigMonitorAlertV2Metric_Schema (snd (fst read)) "metric"
     = "sysdig_container_cpu_used_percent"
  /\ calls (snd read) = [CallGetAlertV2MetricById 7]
  /\ fst (fst failed) = Panicked.
Proof.
  intros d a answering replaying read failed.
  destruct (@read_refreshes_the_state exampleMonitor exampleHelpers d answering
              (answeringClient id a) 7 exampleWorld a 6)
    as (E & _ & _ & S).
  { reflexivity. }
  { vm_compute. reflexivity. }
  { vm_compute. reflexivity. }
  destruct (@read_refreshes_the_state exampleMonitor exampleHelpers d replaying
              (replayingClient bareAlert) 7 exampleWorld bareAlert 6)
    as (_ & P & _).
  { reflexivity. }
  { vm_compute. reflexivity. }
  { vm_compute. reflexivity. }
  split; [apply S; vm_compute; reflexivity|].
  split; [unfold read; rewrite E; vm_compute; reflexivity|].
  split; [unfold read; rewrite E; vm_compute; reflexivity|].
  apply P; vm_compute; reflexivity.
Defined.

Lemma delete_leaves_the_data_witness :
  let d := exampleData "7" "cpu.used.percent" None in
  let i := @Build_SysdigClients exampleMonitor (Ok (answeringClient id exampleAlert)) in
  @resourceSysdigMonitorAlertV2MetricDelete exampleMonitor d i exampleWorld
  = ((Returned [], d), called exampleWorld (CallDeleteAlertV2Metric 7) 6).
Proof.
  intros d i.
  apply (@delete_leaves_the_data exampleMonitor d i (answeringClient id exampleAlert)).
  - reflexivity.
  - vm_compute. reflexivity.
  - vm_compute. reflexivity.
Defined.

Lemma update_sends_the_stored_id_witness :
  let d := exampleData "7" "cpu.used.percent" None in
  let answering := @Build_SysdigClients exampleMonitor (Ok (answeringClient id exampleAlert)) in
  let replaying := @Build_SysdigClients exampleMonitor (Ok (replayingClient bareAlert)) in
  let sent :=
    @Build_AlertV2Metric exampleMonitor
      (@Build_AlertV2Common exampleMonitor 7 "MANUAL" "cpu high")
      (Some (exampleConfig "cpu.used.percent" None)) in
  let updated :=
    @resourceSysdigMonitorAlertV2MetricUpdate exampleMonitor numberingHelpers d answering
      exampleWorld in
  let failed :=
    @resourceSysdigMonitorAlertV2MetricUpdate exampleMonitor numberingHelpers d replaying
      exampleWorld in
  fst (fst updated) = Returned []
  /\ calls (snd updated)
     = [CallGetLabelDescriptor "cpu.used.percent"; CallUpdateAlertV2Metric sent]
  /\ fst (fst failed) = Panicked
  /\ calls (snd failed)
     = [CallGetLabelDescriptor "cpu.used.percent"; CallUpdateAlertV2Metric sent].
Proof.
  intros d answering replaying sent updated failed.
  destruct (@update_sends_the_stored_id exampleMonitor numberingHelpers d answering
              (answeringClient id exampleAlert) exampleWorld
              (called exampleWorld (CallGetLabelDescriptor "cpu.used.percent") 6)
              numberedStruct)
    as (s1 & I1 & T1 & F1 & G1 & U1).
  { reflexivity. }
  { vm_compute. reflexivity. }
  destruct (@update_sends_the_stored_id exampleMonitor numberingHelpers d replaying
              (replayingClient bareAlert) exampleWorld
              (called exampleWorld (CallGetLabelDescriptor "cpu.used.percent") 6)
              numberedStruct)
    as (s2 & I2 & T2 & F2 & G2 & U2).
  { reflexivity. }
  { vm_compute. reflexivity. }
  destruct s1 as [[i1 t1 f1] c1]. destruct s2 as [[i2 t2 f2] c2].
  cbn [Common Config ID Type_ Fields numberedStruct] in I1, T1, F1, G1, I2, T2, F2, G2.
  assert (A : fst (strconv.Atoi (@Quote exampleMonitor) (schema.Id d)) = 7%Z)
    by (vm_compute; reflexivity).
  rewrite A in I1, I2. subst.
  destruct (U1 sent 6%Z) as (E1 & _ & _ & S1); [vm_compute; reflexivity|].
  destruct (U2 bareAlert 6%Z) as (E2 & P2 & _); [vm_compute; reflexivity|].
  split; [apply S1; vm_compute; reflexivity|].
  split; [unfold updated; rewrite E1; vm_compute; reflexivity|].
  split; [apply P2; vm_compute; reflexivity|].
  unfold failed. rewrite E2. vm_compute. reflexivity.
Defined.

Lemma stored_id_is_read_back_witness :
  let d := schema.SetId (exampleData EmptyString "cpu.used.percent" None)
             (strconv.Itoa 1234) in
  let i := @Build_SysdigClients exampleMonitor (Ok (answeringClient id exampleAlert)) in
  let sent :=
    @Build_AlertV2Metric exampleMonitor
      (@Build_AlertV2Common exampleMonitor 1234 "MANUAL" "cpu high")
      (Some (exampleConfig "cpu.used.percent" None)) in
  schema.Id d = "1234"
  /\ calls (snd (@resourceSysdigMonitorAlertV2MetricRead exampleMonitor numberingHelpers d i
                   exampleWorld))
     = [CallGetAlertV2MetricById 1234]
  /\ calls (snd (@resourceSysdigMonitorAlertV2MetricDelete exampleMonitor d i exampleWorld))
     = [CallDeleteAlertV2Metric 1234]
  /\ calls (snd (@resourceSysdigMonitorAlertV2MetricUpdate exampleMonitor numberingHelpers
                   d i exampleWorld))
     = [CallGetLabelDescriptor "cpu.used.percent"; CallUpdateAlertV2Metric sent].
Proof.
  intros d i sent. split; [reflexivity|].
  destruct (@stored_id_is_read_back exampleMonitor numberingHelpers
              (exampleData EmptyString "cpu.used.percent" None) i
              (answeringClient id exampleAlert) exampleWorld 1234)
    as (R & D & U).
  - reflexivity.
  - vm_compute. split; discriminate.
  - split; [exact R|]. split; [exact D|].
    destruct (U numberedStruct
                (called exampleWorld (CallGetLabelDescriptor "cpu.used.percent") 6))
      as (s0 & I & T & F & G & E).
    { vm_compute. reflexivity. }
    destruct s0 as [[sid stype sfields] sconfig].
    cbn [Common Config ID Type_ Fields numberedStruct] in I, T, F, G. subst.
    exact E.
Defined.

Lemma out_of_range_id_witness :
  let d := exampleData "9223372036854775808" "cpu.used.percent" None in
  let i := @Build_SysdigClients exampleMonitor (Ok (answeringClient id exampleAlert)) in
  let sent :=
    @Build_AlertV2Metric exampleMonitor
      (@Build_AlertV2Common exampleMonitor 9223372036854775807 "MANUAL" "cpu high")
      (Some (exampleConfig "cpu.used.percent" None)) in
  fst (@resourceSysdigMonitorAlertV2MetricRead exampleMonitor numberingHelpers d i
         exampleWorld)
  = (Returned (diag.FromErr
                 (Some (strconv.NumError (@Quote exampleMonitor) "Atoi"
                          "9223372036854775808" strconv.ErrRange))), d)
  /\ calls (snd (@resourceSysdigMonitorAlertV2MetricUpdate exampleMonitor numberingHelpers
                   d i exampleWorld))
     = [CallGetLabelDescriptor "cpu.used.percent"; CallUpdateAlertV2Metric sent].
Proof.
  intros d i sent.
  destruct (@out_of_range_id exampleMonitor numberingHelpers d i
              (answeringClient id exampleAlert) exampleWorld false 9223372036854775808)
    as (R & _ & U).
  - reflexivity.
  - vm_compute. reflexivity.
  - left. vm_compute. reflexivity.
  - split; [now rewrite R|].
    destruct (U numberedStruct
                (called exampleWorld (CallGetLabelDescriptor "cpu.used.percent") 6))
      as (s0 & I & T & F & G & E).
    { vm_compute. reflexivity. }
    destruct s0 as [[sid stype sfields] sconfig].
    cbn [Common Config ID Type_ Fields numberedStruct] in I, T, F, G. subst.
    exact E.
Defined.

End alert_coverage.

(** * Properties of the acceptance test's configurations *)

Module sysdig_test_properties.
Import sysdig_test.

Lemma append_assoc (a b c : string) : (a +:+ b) +:+ c = a +:+ b +:+ c.
Proof.
  induction a as [|x a IH]; [reflexivity|].
  change (String x ((a +:+ b) +:+ c) = String x (a +:+ b +:+ c)). now rewrite IH.
Qed.

Lemma append_length (a b : string) :
  String.length (a +:+ b) = (String.length a + String.length b)%nat.
Proof.
  induction a as [|x a IH]; [reflexivity|].
  change (S (String.length (a +:+ b)) = S (String.length a + String.length b)).
  now rewrite IH.
Qed.

Lemma append_cancel_r (a b c : string) : a +:+ c = b +:+ c -> a = b.
Proof.
  intros E.
  assert (L : String.length a = String.length b).
  { apply (f_equal String.length) in E. rewrite !append_length in E. lia. }
  revert b E L. induction a as [|x a IH]; intros [|y b] E L; try discriminate L.
  - reflexivity.
  - change (String x (a +:+ c) = String y (b +:+ c)) in E.
    injection E as -> E. f_equal. apply IH; [exact E|]. now injection L.
Qed.

Lemma groupMappingAllTeams_text (groupName : string) :
  groupMappingAllTeams groupName = before_name +:+ groupName +:+ after_name.
Proof. vm_compute. reflexivity. Qed.

Lemma groupMappingUpdateAllTeamsGroupName_text (groupName : string) :
  groupMappingUpdateAllTeamsGroupName groupName
  = before_name +:+ groupName +:+ "-updated" +:+ after_name.
Proof. vm_compute. reflexivity. Qed.

(** X17: the configuration of the test's second step is the configuration
    of its first step for the group name that the step then checks, the
    name followed by [-updated]; and the first step's configuration holds
    the name as it is, so that two names give the same configuration only
    if they are equal. *)
Theorem updated_configuration_renames_the_group (groupName other : string) :
  groupMappingUpdateAllTeamsGroupName groupName
  = groupMappingAllTeams (fmt.Sprintf "%s-updated" [fmt.str groupName])
  /\ fmt.Sprintf "%s-updated" [fmt.str groupName] = groupName +:+ "-updated"
  /\ (groupMappingAllTeams groupName = groupMappingAllTeams other -> groupName = other).
Proof.
  assert (S : fmt.Sprintf "%s-updated" [fmt.str groupName] = groupName +:+ "-updated")
    by (vm_compute; reflexivity).
  split; [|split; [exact S|]].
  - rewrite S, groupMappingUpdateAllTeamsGroupName_text, groupMappingAllTeams_text.
    now rewrite append_assoc.
  - rewrite !groupMappingAllTeams_text. intros E.
    apply (inj (String.app before_name)) in E.
    exact (append_cancel_r _ _ _ E).
Qed.

End sysdig_test_properties.
